(** * Pashto Proverb of the Day: the selection logic of static/js/scripts.js

    The page script keeps two variables, [proverbs] (the loaded collection)
    and [currentProverb] (the selection), and reacts to the completion of
    the fetch and to clicks on the "new proverb", "copy" and "share"
    buttons.  This file embeds that script and the parts of the ECMAScript
    Date and Number semantics it calls into, and proves what the
    specification says of them.

    Numbers.  Every Number the date code handles is an integer of magnitude
    below 2^53, which binary64 represents exactly; such Numbers are modelled
    as [Z], and NaN as [None].  The one product of a non-integer,
    [Math.random() * proverbs.length], is an IEEE 754 multiplication, taken
    from the Standard Library's specification of binary floating point. *)

From Stdlib Require Import ZArith List String Ascii Bool Lia.
From Stdlib Require Import Floats.SpecFloat.
Import ListNotations.
Local Open Scope Z_scope.

(* ================================================================== *)
(** ** ECMAScript time values (ECMA-262, "Time Values and Time Range") *)
(* ================================================================== *)

(** An integer Number, or NaN ([None]).  A time value is such a Number: a
    count of milliseconds since 1970-01-01T00:00:00Z, or NaN, which is what
    [Date.UTC] returns when there is no time value for its arguments. *)
Definition Number := option Z.

Definition msPerDay : Z := 86400000.
Definition msPerHour : Z := 3600000.
Definition msPerMinute : Z := 60000.
Definition msPerSecond : Z := 1000.

(** The time values a Date object can hold: at most 8.64e15 in magnitude. *)
Definition maxTimeValue : Z := 8640000000000000.

Definition validTime (t : Z) : Prop := - maxTimeValue <= t <= maxTimeValue.

(** Day(t) = floor(t / msPerDay) *)
Definition Day (t : Z) : Z := t / msPerDay.

(** TimeWithinDay(t) = t modulo msPerDay *)
Definition TimeWithinDay (t : Z) : Z := t mod msPerDay.

(** DaysInYear(y) *)
Definition DaysInYear (y : Z) : Z :=
  if negb (y mod 4 =? 0) then 365
  else if negb (y mod 100 =? 0) then 366
  else if negb (y mod 400 =? 0) then 365
  else 366.

(** DayFromYear(y) = 365 (y - 1970) + floor((y - 1969) / 4)
                     - floor((y - 1901) / 100) + floor((y - 1601) / 400) *)
Definition DayFromYear (y : Z) : Z :=
  365 * (y - 1970) + (y - 1969) / 4 - (y - 1901) / 100 + (y - 1601) / 400.

(** TimeFromYear(y) = msPerDay * DayFromYear(y) *)
Definition TimeFromYear (y : Z) : Z := msPerDay * DayFromYear y.

(** YearFromTime(t) is "the largest integer y such that TimeFromYear(y) <= t".
    It is computed here from an estimate over the 400-year cycle of 146097
    days, which is off by at most one year; [YearFromTime_largest] below
    shows that the result is the year the standard describes. *)
Definition yearEstimate (d : Z) : Z := 1970 + (400 * d) / 146097.

Definition YearFromDay (d : Z) : Z :=
  let y := yearEstimate d in
  if d <? DayFromYear y then y - 1
  else if DayFromYear (y + 1) <=? d then y + 1
  else y.

Definition YearFromTime (t : Z) : Z := YearFromDay (Day t).

(** InLeapYear(t) *)
Definition InLeapYear (t : Z) : Z :=
  if DaysInYear (YearFromTime t) =? 365 then 0 else 1.

(** DayWithinYear(t) = Day(t) - DayFromYear(YearFromTime(t)) *)
Definition DayWithinYear (t : Z) : Z := Day t - DayFromYear (YearFromTime t).

(** The month table of the standard, on the day within the year and the
    leap flag. *)
Definition monthOfDay (dwy leap : Z) : Z :=
  if dwy <? 31 then 0
  else if dwy <? 59 + leap then 1
  else if dwy <? 90 + leap then 2
  else if dwy <? 120 + leap then 3
  else if dwy <? 151 + leap then 4
  else if dwy <? 181 + leap then 5
  else if dwy <? 212 + leap then 6
  else if dwy <? 243 + leap then 7
  else if dwy <? 273 + leap then 8
  else if dwy <? 304 + leap then 9
  else if dwy <? 334 + leap then 10
  else 11.

(** MonthFromTime(t) *)
Definition MonthFromTime (t : Z) : Z :=
  monthOfDay (DayWithinYear t) (InLeapYear t).

(** The date table of the standard. *)
Definition dateOfDay (dwy leap month : Z) : Z :=
  if month =? 0 then dwy + 1
  else if month =? 1 then dwy - 30
  else if month =? 2 then dwy - 58 - leap
  else if month =? 3 then dwy - 89 - leap
  else if month =? 4 then dwy - 119 - leap
  else if month =? 5 then dwy - 150 - leap
  else if month =? 6 then dwy - 180 - leap
  else if month =? 7 then dwy - 211 - leap
  else if month =? 8 then dwy - 242 - leap
  else if month =? 9 then dwy - 272 - leap
  else if month =? 10 then dwy - 303 - leap
  else dwy - 333 - leap.

(** DateFromTime(t) *)
Definition DateFromTime (t : Z) : Z :=
  dateOfDay (DayWithinYear t) (InLeapYear t) (MonthFromTime t).

(** Day number, within its year, of the first day of month [mn] (0..11). *)
Definition monthStart (mn leap : Z) : Z :=
  if mn =? 0 then 0
  else if mn =? 1 then 31
  else if mn =? 2 then 59 + leap
  else if mn =? 3 then 90 + leap
  else if mn =? 4 then 120 + leap
  else if mn =? 5 then 151 + leap
  else if mn =? 6 then 181 + leap
  else if mn =? 7 then 212 + leap
  else if mn =? 8 then 243 + leap
  else if mn =? 9 then 273 + leap
  else if mn =? 10 then 304 + leap
  else 334 + leap.

Definition leapFlag (y : Z) : Z := if DaysInYear y =? 365 then 0 else 1.

(** MakeDay(year, month, date): with ym = year + floor(month / 12) and
    mn = month modulo 12, "find a finite time value t such that
    YearFromTime(t) is ym, MonthFromTime(t) is mn and DateFromTime(t) is 1;
    return Day(t) + date - 1".  That t is the first instant of the month;
    [MakeDay_first_of_month] below shows it has the three fields asked for. *)
Definition firstOfMonth (ym mn : Z) : Z :=
  msPerDay * (DayFromYear ym + monthStart mn (leapFlag ym)).

Definition MakeDay (year month date : Z) : Z :=
  let ym := year + month / 12 in
  let mn := month mod 12 in
  Day (firstOfMonth ym mn) + date - 1.

(** MakeTime(hour, min, sec, ms) *)
Definition MakeTime (hour min sec ms : Z) : Z :=
  hour * msPerHour + min * msPerMinute + sec * msPerSecond + ms.

(** MakeDate(day, time) = day * msPerDay + time *)
Definition MakeDate (day time : Z) : Z := day * msPerDay + time.

(** MakeFullYear(year): years 0 to 99 stand for 1900 to 1999. *)
Definition MakeFullYear (year : Z) : Z :=
  if (0 <=? year) && (year <=? 99) then 1900 + year else year.

(** TimeClip(time): NaN outside the range of time values. *)
Definition TimeClip (time : Z) : Number :=
  if maxTimeValue <? Z.abs time then None else Some time.

(** Date.UTC(year, month, date), the hour, minute, second and millisecond
    arguments absent (they default to 0). *)
Definition Date_UTC (year month date : Z) : Number :=
  let yr := MakeFullYear year in
  TimeClip (MakeDate (MakeDay yr month date) (MakeTime 0 0 0 0)).

(** The three UTC getters of a Date whose time value is [t]. *)
Definition getUTCFullYear (t : Z) : Z := YearFromTime t.
Definition getUTCMonth (t : Z) : Z := MonthFromTime t.
Definition getUTCDate (t : Z) : Z := DateFromTime t.

(* ================================================================== *)
(** ** scripts.js: getUTCOrdinalDay                                    *)
(* ================================================================== *)

(** Subtraction of two Numbers: NaN when either is NaN. *)
Definition num_sub (a b : Number) : Number :=
  match a, b with
  | Some x, Some y => Some (x - y)
  | _, _ => None
  end.

(** [Math.floor(x / d)] for an integer Number [x] and a positive integer
    constant [d].  Where getUTCOrdinalDay divides, [d] divides [x]
    ([getUTCOrdinalDay_division_exact]), so the quotient is exact in
    binary64 as well. *)
Definition floor_div (a : Number) (d : Z) : Number :=
  match a with
  | Some x => Some (x / d)
  | None => None
  end.

(** function getUTCOrdinalDay(date = new Date()) {
      const start = Date.UTC(date.getUTCFullYear(), 0, 1);
      const today = Date.UTC(date.getUTCFullYear(), date.getUTCMonth(),
                             date.getUTCDate());
      const diff = today - start;
      return Math.floor(diff / (24 * 60 * 60 * 1000));
    }
    [date] is the time value of the Date passed in; a Date made by
    [new Date()], the default, always has one. *)
Definition getUTCOrdinalDay (date : Z) : Number :=
  let start := Date_UTC (getUTCFullYear date) 0 1 in
  let today := Date_UTC (getUTCFullYear date) (getUTCMonth date) (getUTCDate date) in
  let diff := num_sub today start in
  floor_div diff (24 * 60 * 60 * 1000).

(* ================================================================== *)
(** ** binary64 Numbers that are not integers                          *)
(* ================================================================== *)

(** [Math.random()] returns a binary64 value that is at least 0 and less
    than 1, and [Math.random() * proverbs.length] is one IEEE 754
    multiplication, rounded to nearest, ties to even.  Both are taken from
    the Standard Library's specification of binary floating point. *)
Definition prec : Z := 53.
Definition emax : Z := 1024.

Definition b64_mul : spec_float -> spec_float -> spec_float := SFmul prec emax.

(** The Number that an integer (here an array length) is. *)
Definition b64_of_Z (n : Z) : spec_float := binary_normalize prec emax n 0 false.

Definition b64_zero : spec_float := S754_zero false.
Definition b64_one : spec_float := b64_of_Z 1.

(** What [Math.random()] may return: a finite binary64 r with 0 <= r < 1. *)
Definition unitInterval (r : spec_float) : bool :=
  valid_binary prec emax r && SFleb b64_zero r && SFltb r b64_one.

(** [Math.floor(x)]: the greatest integer not above x; NaN and the
    infinities are returned as they are, and are no integers ([None]). *)
Definition Math_floor (x : spec_float) : Number :=
  match x with
  | S754_zero _ => Some 0
  | S754_finite s m e =>
      let v := if s then Z.neg m else Z.pos m in
      Some (if 0 <=? e then v * 2 ^ e else v / 2 ^ (- e))
  | S754_infinity _ => None
  | S754_nan => None
  end.

(** The remainder operator [a % n] on integer Numbers: truncating, with the
    sign of the dividend; NaN when [a] is NaN or [n] is 0. *)
Definition num_rem (a : Number) (n : Z) : Number :=
  match a with
  | Some x => if n =? 0 then None else Some (Z.rem x n)
  | None => None
  end.

(* ================================================================== *)
(** ** scripts.js: the page state                                      *)
(* ================================================================== *)

(** One element of proverbs.json. *)
Record ProverbRecord : Type := mkProverb {
  proverb : string;
  translation : string;
  meaning : string
}.

(** The four places of the document the script writes to: the textContent
    of the three display elements and the innerHTML of the copy button. *)
Record Page : Type := mkPage {
  proverbTextEl : string;
  translationEl : string;
  meaningEl : string;
  copyBtn : string
}.

(** The closure's variables, and what the event loop holds for the script:
    whether the fetch is still to settle, how many [writeText] and [share]
    promises are, and the [setTimeout] callbacks waiting (each with the
    [originalText] it captured; equal delays fire in order).

    [currentProverb] is [None] for the two values JavaScript has for "no
    object": null, its initial value, and undefined, what an array read
    outside its bounds yields.  The script tells them apart nowhere: it only
    tests [!currentProverb] and reads fields. *)
Record State : Type := mkState {
  proverbs : list ProverbRecord;
  currentProverb : option ProverbRecord;
  page : Page;
  fetchPending : bool;
  pendingWrites : nat;
  pendingShares : nat;
  timers : list string
}.

(** What the host tells the script when asked: the time value of
    [new Date()], and the offset of the local time zone, which only the
    local getters ([getFullYear], [getDate], ...) would consult. *)
Record Host : Type := mkHost {
  currentTime : Z;
  localTZA : Z
}.

Inductive JSError : Type :=
| TypeError
| HostError (reason : string).

(** How a call ends. *)
Inductive Completion : Type :=
| Normal
| Throw (e : JSError).

(** What the script does to the world outside its own variables and the
    page. *)
Inductive Effect : Type :=
| ConsoleError (args : list string) (e : JSError)
| ClipboardWriteText (text : string)
| NavigatorShare (title text : string)
| Alert (message : string)
| UnhandledRejection (e : JSError)
| UncaughtException (e : JSError).

Record Result : Type := mkResult {
  after : State;
  effects : list Effect;
  completion : Completion
}.

Definition set_currentProverb (c : option ProverbRecord) (st : State) : State :=
  mkState (proverbs st) c (page st) (fetchPending st)
          (pendingWrites st) (pendingShares st) (timers st).

Definition set_proverbs (l : list ProverbRecord) (st : State) : State :=
  mkState l (currentProverb st) (page st) (fetchPending st)
          (pendingWrites st) (pendingShares st) (timers st).

Definition set_page (p : Page) (st : State) : State :=
  mkState (proverbs st) (currentProverb st) p (fetchPending st)
          (pendingWrites st) (pendingShares st) (timers st).

(** [proverbs.length] *)
Definition array_length (l : list ProverbRecord) : Z := Z.of_nat (List.length l).

(** [proverbs[i]] for a Number [i]: the element when [i] is an integer from
    0 to length - 1, undefined otherwise (NaN included). *)
Definition array_get (l : list ProverbRecord) (i : Number) : option ProverbRecord :=
  match i with
  | Some z => if z <? 0 then None else nth_error l (Z.to_nat z)
  | None => None
  end.

Definition nl : string := String (ascii_of_nat 10) EmptyString.
Definition dquote : string := String (ascii_of_nat 34) EmptyString.

(** The three assignments both display functions end with:
      proverbTextEl.textContent = currentProverb.proverb;
      translationEl.textContent = `"${currentProverb.translation}"`;
      meaningEl.textContent = currentProverb.meaning;
    The first field read throws a TypeError when [currentProverb] is
    undefined. *)
Definition showCurrent (st : State) : Result :=
  match currentProverb st with
  | None => mkResult st [] (Throw TypeError)
  | Some c =>
      let pg := mkPage (proverb c)
                       (dquote ++ translation c ++ dquote)%string
                       (meaning c)
                       (copyBtn (page st)) in
      mkResult (set_page pg st) [] Normal
  end.

(** function displayDailyProverb() {
      if (proverbs.length === 0) return;
      const idx = getUTCOrdinalDay() % proverbs.length;
      currentProverb = proverbs[idx];
      ...
    } *)
Definition dailyIndex (l : list ProverbRecord) (date : Z) : Number :=
  num_rem (getUTCOrdinalDay date) (array_length l).

Definition displayDailyProverb (h : Host) (st : State) : Result :=
  if array_length (proverbs st) =? 0 then mkResult st [] Normal
  else
    let idx := dailyIndex (proverbs st) (currentTime h) in
    showCurrent (set_currentProverb (array_get (proverbs st) idx) st).

(** function displayRandomProverb() {
      if (proverbs.length === 0) return;
      currentProverb = proverbs[Math.floor(Math.random() * proverbs.length)];
      ...
    }
    [random] is what [Math.random()] returned. *)
Definition randomIndex (l : list ProverbRecord) (random : spec_float) : Number :=
  Math_floor (b64_mul random (b64_of_Z (array_length l))).

Definition displayRandomProverb (random : spec_float) (st : State) : Result :=
  if array_length (proverbs st) =? 0 then mkResult st [] Normal
  else
    let idx := randomIndex (proverbs st) random in
    showCurrent (set_currentProverb (array_get (proverbs st) idx) st).

(** Template literals: literal text and substitutions of fields of
    [currentProverb], in the order written. *)
Inductive Field : Type := FProverb | FTranslation | FMeaning.

Inductive Segment : Type :=
| Lit (s : string)
| Sub (f : Field).

Definition field (c : ProverbRecord) (f : Field) : string :=
  match f with
  | FProverb => proverb c
  | FTranslation => translation c
  | FMeaning => meaning c
  end.

Definition segment (c : ProverbRecord) (s : Segment) : string :=
  match s with
  | Lit t => t
  | Sub f => field c f
  end.

Definition render (c : ProverbRecord) (tpl : list Segment) : string :=
  String.concat EmptyString (map (segment c) tpl).

(** `${currentProverb.proverb}\n\nTranslation: ${currentProverb.translation}\nMeaning: ${currentProverb.meaning}` *)
Definition copyTemplate : list Segment :=
  [ Sub FProverb; Lit (nl ++ nl ++ "Translation: ")%string; Sub FTranslation;
    Lit (nl ++ "Meaning: ")%string; Sub FMeaning ].

(** `Pashto Proverb:\n${currentProverb.proverb}\n\nTranslation: ${currentProverb.translation}` *)
Definition shareTemplate : list Segment :=
  [ Lit ("Pashto Proverb:" ++ nl)%string; Sub FProverb;
    Lit (nl ++ nl ++ "Translation: ")%string; Sub FTranslation ].

Definition set_pendingWrites (n : nat) (st : State) : State :=
  mkState (proverbs st) (currentProverb st) (page st) (fetchPending st)
          n (pendingShares st) (timers st).

Definition set_pendingShares (n : nat) (st : State) : State :=
  mkState (proverbs st) (currentProverb st) (page st) (fetchPending st)
          (pendingWrites st) n (timers st).

Definition set_timers (l : list string) (st : State) : State :=
  mkState (proverbs st) (currentProverb st) (page st) (fetchPending st)
          (pendingWrites st) (pendingShares st) l.

Definition set_fetchPending (b : bool) (st : State) : State :=
  mkState (proverbs st) (currentProverb st) (page st) b
          (pendingWrites st) (pendingShares st) (timers st).

Definition set_copyBtn (html : string) (pg : Page) : Page :=
  mkPage (proverbTextEl pg) (translationEl pg) (meaningEl pg) html.

Definition set_proverbTextEl (text : string) (pg : Page) : Page :=
  mkPage text (translationEl pg) (meaningEl pg) (copyBtn pg).

(** function copyProverb() {
      if (!currentProverb) return;
      const textToCopy = `...`;
      navigator.clipboard.writeText(textToCopy).then(() => { ... });
    }
    [hasClipboard] says whether [navigator.clipboard] is an object (it is
    undefined outside a secure context and in browsers without the
    Clipboard API).  When it is, the call hands the text to the host and
    leaves one promise pending; when it is not, reading [writeText] from
    undefined throws a TypeError, after the text has been built and before
    anything is written. *)
Definition copyProverb (hasClipboard : bool) (st : State) : Result :=
  match currentProverb st with
  | None => mkResult st [] Normal
  | Some c =>
      let textToCopy := render c copyTemplate in
      if hasClipboard then
        mkResult (set_pendingWrites (S (pendingWrites st)) st)
                 [ClipboardWriteText textToCopy] Normal
      else
        mkResult st [] (Throw TypeError)
  end.

Definition copiedLabel : string :=
  ("<i class=" ++ dquote ++ "fas fa-check" ++ dquote ++ "></i> کاپي شو!")%string.

(** The callback given to [then]: it runs when [writeText] is fulfilled.
      const originalText = copyBtn.innerHTML;
      copyBtn.innerHTML = '<i class="fas fa-check"></i> ...';
      setTimeout(() => { copyBtn.innerHTML = originalText; }, 2000); *)
Definition copyFulfilled (st : State) : Result :=
  let originalText := copyBtn (page st) in
  let st1 := set_page (set_copyBtn copiedLabel (page st)) st in
  mkResult (set_timers (timers st1 ++ [originalText]) st1) [] Normal.

(** The callback given to [setTimeout]. *)
Definition copyTimeout (originalText : string) (st : State) : Result :=
  mkResult (set_page (set_copyBtn originalText (page st)) st) [] Normal.

(** How a promise of the host settles. *)
Inductive Settlement : Type :=
| Fulfilled
| Rejected (reason : string).

(** [writeText(...).then(onFulfilled)]: the promise [then] returns has no
    handler of its own, so a rejection of [writeText] passes to it and is
    handled by nothing. *)
Definition writeTextSettled (s : Settlement) (st : State) : Result :=
  match s with
  | Fulfilled => copyFulfilled st
  | Rejected reason => mkResult st [UnhandledRejection (HostError reason)] Normal
  end.

(** function shareProverb() {
      if (!currentProverb) return;
      const textToShare = `...`;
      if (navigator.share) {
        navigator.share({ title: 'Pashto Proverb of the Day',
                          text: textToShare }).catch(console.error);
      } else {
        alert('Use the copy button to share this proverb.');
      }
    }
    [canShare] is the truth value of [navigator.share]. *)
Definition shareProverb (canShare : bool) (st : State) : Result :=
  match currentProverb st with
  | None => mkResult st [] Normal
  | Some c =>
      let textToShare := render c shareTemplate in
      if canShare then
        mkResult (set_pendingShares (S (pendingShares st)) st)
                 [NavigatorShare "Pashto Proverb of the Day" textToShare] Normal
      else
        mkResult st [Alert "Use the copy button to share this proverb."] Normal
  end.

(** [navigator.share(...).catch(console.error)] *)
Definition shareSettled (s : Settlement) (st : State) : Result :=
  match s with
  | Fulfilled => mkResult st [] Normal
  | Rejected reason => mkResult st [ConsoleError [] (HostError reason)] Normal
  end.

Definition loadFailedText : string := "متلونه په پورته کولو کې پاتې راغلل.".

(** .catch(error => {
      console.error('Error fetching proverbs:', error);
      proverbTextEl.textContent = '...';
    }) *)
Definition fetchCatch (error : JSError) (st : State) : Result :=
  mkResult (set_page (set_proverbTextEl loadFailedText (page st)) st)
           [ConsoleError ["Error fetching proverbs:"%string] error] Normal.

(** .then(data => { proverbs = data; displayDailyProverb(); })
    followed by the [catch] above, which also receives what the callback
    throws. *)
Definition fetchFulfilled (data : list ProverbRecord) (h : Host) (st : State) : Result :=
  let r := displayDailyProverb h (set_proverbs data st) in
  match completion r with
  | Normal => r
  | Throw e =>
      let r' := fetchCatch e (after r) in
      mkResult (after r') (effects r ++ effects r') (completion r')
  end.

(** *** The events of a session *)

Inductive Event : Type :=
| FetchFulfilled (data : list ProverbRecord) (h : Host)
| FetchRejected (reason : string)
| NewProverbClick (random : spec_float)
| CopyClick (hasClipboard : bool)
| WriteTextSettled (s : Settlement)
| TimerFired
| ShareClick (canShare : bool)
| ShareSettled (s : Settlement).

(** DOMContentLoaded: [let proverbs = []; let currentProverb = null;] and the
    fetch started, over the page as the document has it. *)
Definition initial (pg : Page) : State :=
  mkState [] None pg true 0 0 [].

(** An exception a listener does not catch is reported by the host and ends
    that listener only. *)
Definition listener (r : Result) : State * list Effect :=
  match completion r with
  | Normal => (after r, effects r)
  | Throw e => (after r, effects r ++ [UncaughtException e])
  end.

(** One turn of the event loop; [None] when the event cannot occur in [st]
    (a promise settles once, a timer fires once, [Math.random()] is in
    [0, 1)). *)
Definition step (ev : Event) (st : State) : option (State * list Effect) :=
  match ev with
  | FetchFulfilled data h =>
      if fetchPending st
      then Some (listener (fetchFulfilled data h (set_fetchPending false st)))
      else None
  | FetchRejected reason =>
      if fetchPending st
      then Some (listener (fetchCatch (HostError reason) (set_fetchPending false st)))
      else None
  | NewProverbClick random =>
      if unitInterval random
      then Some (listener (displayRandomProverb random st))
      else None
  | CopyClick hasClipboard => Some (listener (copyProverb hasClipboard st))
  | WriteTextSettled s =>
      match pendingWrites st with
      | O => None
      | S n => Some (listener (writeTextSettled s (set_pendingWrites n st)))
      end
  | TimerFired =>
      match timers st with
      | [] => None
      | originalText :: rest =>
          Some (listener (copyTimeout originalText (set_timers rest st)))
      end
  | ShareClick canShare => Some (listener (shareProverb canShare st))
  | ShareSettled s =>
      match pendingShares st with
      | O => None
      | S n => Some (listener (shareSettled s (set_pendingShares n st)))
      end
  end.

(** The states a session can be in. *)
Inductive reachable (pg : Page) : State -> Prop :=
| reach_initial : reachable pg (initial pg)
| reach_step st ev st' fx :
    reachable pg st -> step ev st = Some (st', fx) -> reachable pg st'.

(* ================================================================== *)
(** ** Notions the properties below are stated with                    *)
(* ================================================================== *)

(** The day number within the year that the two calls of [Date.UTC] in
    getUTCOrdinalDay differ by: the month and date of [t], placed in the
    year [yr] that [Date.UTC] takes the year number for. *)
Definition ordinalInYear (yr : Z) (t : Z) : Z :=
  monthStart (MonthFromTime t) (leapFlag yr) + DateFromTime t - 1.

(** The ordinal day as the specification words it: the UTC midnight of the
    date, less the UTC midnight of January 1 of the date's UTC year, in
    whole days. *)
Definition utcMidnight (t : Z) : Z := t - TimeWithinDay t.

Definition yearStart (t : Z) : Z := TimeFromYear (YearFromTime t).

Definition ordinalDaySpec (t : Z) : Z := (utcMidnight t - yearStart t) / msPerDay.

(** Two time values on one UTC calendar day: the same year, month and date. *)
Definition sameUTCDay (t1 t2 : Z) : Prop :=
  getUTCFullYear t1 = getUTCFullYear t2 /\
  getUTCMonth t1 = getUTCMonth t2 /\
  getUTCDate t1 = getUTCDate t2.

(** A run of events, with everything the script did to the outside. *)
Fixpoint run (evs : list Event) (st : State) : option (State * list Effect) :=
  match evs with
  | [] => Some (st, [])
  | ev :: rest =>
      match step ev st with
      | None => None
      | Some (st1, fx1) =>
          match run rest st1 with
          | None => None
          | Some (st2, fx2) => Some (st2, fx1 ++ fx2)
          end
      end
  end.

(** The events of the copy and share actions: the clicks, and the
    completions of what the clicks started. *)
Definition copyOrShare (ev : Event) : bool :=
  match ev with
  | CopyClick _ | WriteTextSettled _ | TimerFired | ShareClick _ | ShareSettled _ => true
  | FetchFulfilled _ _ | FetchRejected _ | NewProverbClick _ => false
  end.

(** What a display function leaves behind when it has selected [c]. *)
Definition selected (c : ProverbRecord) (st : State) : State :=
  set_page (mkPage (proverb c) (dquote ++ translation c ++ dquote) (meaning c)
                   (copyBtn (page st)))
           (set_currentProverb (Some c) st).

(** [s] occurs in [t]. *)
Definition occurs_in (s t : string) : Prop :=
  exists before after : string, t = (before ++ s ++ after)%string.

(** The selection is nothing, or a record of the collection. *)
Definition selection_in_collection (st : State) : Prop :=
  currentProverb st = None \/
  exists c, currentProverb st = Some c /\ In c (proverbs st).

(** Until the fetch settles, the collection is empty. *)
Definition session_invariant (st : State) : Prop :=
  selection_in_collection st /\ (fetchPending st = true -> proverbs st = []).

(** After shifting the mantissa [N] right by as many bits as [P = 2^k] says:
    the mantissa kept is N / P, and the round bit, when set, says that the
    bits dropped amount to half of P or more. *)
Definition shifted (N P : Z) (mrs : shr_record) : Prop :=
  0 < P /\ 0 <= shr_m mrs /\
  shr_m mrs * P <= N < (shr_m mrs + 1) * P /\
  (shr_r mrs = true -> (2 * shr_m mrs + 1) * P <= 2 * N).

(** *** Sample data: three records, loaded, nothing selected yet *)

Definition sampleProverbs : list ProverbRecord :=
  [ mkProverb "p0" "t0" "m0"; mkProverb "p1" "t1" "m1"; mkProverb "p2" "t2" "m2" ].

Definition samplePage : Page := mkPage "" "" "" "Copy".

Definition sampleState : State :=
  mkState sampleProverbs None samplePage false 0 0 [].

(** The largest Number below 1, 1 - 2^-53, and the smallest above 0. *)
Definition b64_below_one : spec_float := S754_finite false 9007199254740991 (-53).
Definition b64_tiny : spec_float := S754_finite false 1 (-1074).

(** The two completions of the fetch. *)
Definition isFetch (ev : Event) : bool :=
  match ev with
  | FetchFulfilled _ _ | FetchRejected _ => true
  | _ => false
  end.

(** Nothing loaded, nothing selected, nothing under way. *)
Definition quiet (st : State) : Prop :=
  proverbs st = [] /\ currentProverb st = None /\
  pendingWrites st = O /\ pendingShares st = O /\ timers st = [].

(** The session after a rejected fetch, and after a fetch of an empty
    array, over the page [pg] of the document. *)
Definition failedLoad (pg : Page) : State :=
  mkState [] None (set_proverbTextEl loadFailedText pg) false 0 0 [].

Definition emptyLoad (pg : Page) : State :=
  mkState [] None pg false 0 0 [].

(** The page displays the record [c]. *)
Definition shows (c : ProverbRecord) (pg : Page) : Prop :=
  proverbTextEl pg = proverb c /\
  translationEl pg = (dquote ++ translation c ++ dquote)%string /\
  meaningEl pg = meaning c.

Definition shown_is_selected (st : State) : Prop :=
  forall c, currentProverb st = Some c -> shows c (page st).

(** Linear arithmetic with divisions and remainders by constants. *)
Ltac div_lia := Z.to_euclidean_division_equations; lia.

(* ================================================================== *)
(** ** Facts about time values                                         *)
(* ================================================================== *)

Lemma DayFromYear_estimate y :
  146097 * (y - 1970) - 506 <= 400 * DayFromYear y <= 146097 * (y - 1970) + 589.
Proof. unfold DayFromYear. div_lia. Qed.

Lemma DaysInYear_cases y : DaysInYear y = 365 \/ DaysInYear y = 366.
Proof.
  unfold DaysInYear.
  destruct (y mod 4 =? 0), (y mod 100 =? 0), (y mod 400 =? 0); cbn [negb]; auto.
Qed.

Lemma DayFromYear_succ y : DayFromYear (y + 1) = DayFromYear y + DaysInYear y.
Proof.
  unfold DayFromYear, DaysInYear.
  destruct (Z.eqb_spec (y mod 4) 0), (Z.eqb_spec (y mod 100) 0), (Z.eqb_spec (y mod 400) 0);
    cbn [negb]; div_lia.
Qed.

Lemma DayFromYear_lt y1 y2 : y1 < y2 -> DayFromYear y1 < DayFromYear y2.
Proof.
  intros H. unfold DayFromYear. div_lia.
Qed.

Lemma YearFromDay_spec d :
  DayFromYear (YearFromDay d) <= d < DayFromYear (YearFromDay d + 1).
Proof.
  unfold YearFromDay.
  set (y := yearEstimate d).
  assert (Hy : 146097 * (y - 1970) <= 400 * d < 146097 * (y - 1970) + 146097).
  { subst y. unfold yearEstimate. div_lia. }
  pose proof (DayFromYear_estimate (y - 1)).
  pose proof (DayFromYear_estimate y).
  pose proof (DayFromYear_estimate (y + 1)).
  pose proof (DayFromYear_estimate (y + 1 + 1)).
  destruct (Z.ltb_spec d (DayFromYear y)).
  - replace (y - 1 + 1) with y by lia. lia.
  - destruct (Z.leb_spec (DayFromYear (y + 1)) d); lia.
Qed.

Lemma YearFromDay_unique d y :
  DayFromYear y <= d < DayFromYear (y + 1) -> YearFromDay d = y.
Proof.
  intros H. pose proof (YearFromDay_spec d) as S.
  destruct (Z.lt_trichotomy (YearFromDay d) y) as [L | [E | G]]; [ | exact E | ].
  - assert (DayFromYear (YearFromDay d + 1) <= DayFromYear y).
    { destruct (Z.eq_dec (YearFromDay d + 1) y) as [-> | N]; [lia|].
      apply Z.lt_le_incl, DayFromYear_lt. lia. }
    lia.
  - assert (DayFromYear (y + 1) <= DayFromYear (YearFromDay d)).
    { destruct (Z.eq_dec (y + 1) (YearFromDay d)) as [-> | N]; [lia|].
      apply Z.lt_le_incl, DayFromYear_lt. lia. }
    lia.
Qed.

Lemma Day_bounds t : msPerDay * Day t <= t < msPerDay * (Day t + 1).
Proof. unfold Day, msPerDay. div_lia. Qed.

Lemma Day_of_multiple d : Day (msPerDay * d) = d.
Proof. unfold Day, msPerDay. div_lia. Qed.

(** YearFromTime(t) is the largest integer y such that TimeFromYear(y) <= t. *)
Lemma YearFromTime_largest t :
  TimeFromYear (YearFromTime t) <= t /\
  forall y, TimeFromYear y <= t -> y <= YearFromTime t.
Proof.
  unfold YearFromTime, TimeFromYear.
  pose proof (YearFromDay_spec (Day t)) as S.
  pose proof (Day_bounds t) as B.
  split.
  - unfold msPerDay in *. lia.
  - intros y Hy.
    destruct (Z.le_gt_cases y (YearFromDay (Day t))) as [L | G]; [exact L | exfalso].
    assert (DayFromYear (YearFromDay (Day t) + 1) <= DayFromYear y).
    { destruct (Z.eq_dec (YearFromDay (Day t) + 1) y) as [-> | N]; [lia|].
      apply Z.lt_le_incl, DayFromYear_lt. lia. }
    unfold msPerDay in *. lia.
Qed.

Lemma DayWithinYear_range t : 0 <= DayWithinYear t < DaysInYear (YearFromTime t).
Proof.
  unfold DayWithinYear, YearFromTime.
  pose proof (YearFromDay_spec (Day t)) as S.
  rewrite DayFromYear_succ in S. lia.
Qed.

Lemma monthOfDay_range dwy leap : 0 <= monthOfDay dwy leap <= 11.
Proof.
  unfold monthOfDay.
  repeat match goal with |- context [if ?c then _ else _] => destruct c end; lia.
Qed.

Lemma monthStart_dateOfDay dwy leap :
  monthStart (monthOfDay dwy leap) leap + dateOfDay dwy leap (monthOfDay dwy leap) - 1 = dwy.
Proof.
  unfold monthOfDay.
  repeat match goal with |- context [if dwy <? ?c then _ else _] => destruct (dwy <? c) end;
  unfold monthStart, dateOfDay; cbn [Z.eqb Pos.eqb]; lia.
Qed.

Lemma leapFlag_InLeapYear t : leapFlag (YearFromTime t) = InLeapYear t.
Proof. reflexivity. Qed.

Lemma MakeDay_in_year y m dt :
  0 <= m <= 11 -> MakeDay y m dt = DayFromYear y + monthStart m (leapFlag y) + dt - 1.
Proof.
  intros Hm. unfold MakeDay, firstOfMonth.
  replace (m / 12) with 0 by div_lia.
  replace (m mod 12) with m by div_lia.
  rewrite Day_of_multiple, Z.add_0_r. reflexivity.
Qed.

(** The calendar fields of a time value give back its day number. *)
Lemma MakeDay_of_fields t :
  MakeDay (YearFromTime t) (MonthFromTime t) (DateFromTime t) = Day t.
Proof.
  rewrite MakeDay_in_year by apply monthOfDay_range.
  rewrite leapFlag_InLeapYear.
  unfold MonthFromTime, DateFromTime, MonthFromTime.
  pose proof (monthStart_dateOfDay (DayWithinYear t) (InLeapYear t)).
  unfold DayWithinYear in *. lia.
Qed.

Lemma leapFlag_cases y : leapFlag y = 0 \/ leapFlag y = 1.
Proof. unfold leapFlag. destruct (DaysInYear y =? 365); auto. Qed.

Lemma monthOfDay_monthStart mn leap :
  0 <= mn <= 11 -> 0 <= leap <= 1 ->
  monthOfDay (monthStart mn leap) leap = mn /\
  dateOfDay (monthStart mn leap) leap mn = 1.
Proof.
  intros Hm Hl.
  assert (C : mn = 0 \/ mn = 1 \/ mn = 2 \/ mn = 3 \/ mn = 4 \/ mn = 5 \/ mn = 6 \/
              mn = 7 \/ mn = 8 \/ mn = 9 \/ mn = 10 \/ mn = 11) by lia.
  assert (L : leap = 0 \/ leap = 1) by lia.
  destruct L as [-> | ->];
    repeat (destruct C as [-> | C]; [split; reflexivity | ]); subst; split; reflexivity.
Qed.

Lemma monthStart_range mn leap :
  0 <= leap <= 1 -> 0 <= monthStart mn leap <= 334 + leap.
Proof.
  intros Hl. unfold monthStart.
  repeat match goal with |- context [if ?c then _ else _] => destruct c end; lia.
Qed.

Lemma leapFlag_DaysInYear y : DaysInYear y = 365 + leapFlag y.
Proof.
  unfold leapFlag. destruct (DaysInYear_cases y) as [E | E]; rewrite E; reflexivity.
Qed.

(** MakeDay meets its description in the standard: the instant it finds has
    the year and month asked for, and is the first of the month. *)
Lemma MakeDay_first_of_month ym mn :
  0 <= mn <= 11 ->
  YearFromTime (firstOfMonth ym mn) = ym /\
  MonthFromTime (firstOfMonth ym mn) = mn /\
  DateFromTime (firstOfMonth ym mn) = 1.
Proof.
  intros Hm.
  pose proof (leapFlag_cases ym) as Hl.
  pose proof (monthStart_range mn (leapFlag ym) ltac:(lia)) as Hs.
  assert (Y : YearFromTime (firstOfMonth ym mn) = ym).
  { unfold YearFromTime, firstOfMonth. rewrite Day_of_multiple.
    apply YearFromDay_unique. rewrite DayFromYear_succ, leapFlag_DaysInYear. lia. }
  assert (L : InLeapYear (firstOfMonth ym mn) = leapFlag ym).
  { unfold InLeapYear. rewrite Y. reflexivity. }
  assert (W : DayWithinYear (firstOfMonth ym mn) = monthStart mn (leapFlag ym)).
  { unfold DayWithinYear. rewrite Y. unfold firstOfMonth.
    rewrite Day_of_multiple. lia. }
  destruct (monthOfDay_monthStart mn (leapFlag ym) Hm ltac:(lia)) as [M D].
  assert (M' : MonthFromTime (firstOfMonth ym mn) = mn).
  { unfold MonthFromTime. rewrite W, L. exact M. }
  repeat split; [exact Y | exact M' | ].
  unfold DateFromTime. rewrite M', W, L. exact D.
Qed.

Lemma MakeDay_meets_standard year month date :
  let ym := year + month / 12 in
  let mn := month mod 12 in
  let t := firstOfMonth ym mn in
  YearFromTime t = ym /\ MonthFromTime t = mn /\ DateFromTime t = 1 /\
  MakeDay year month date = Day t + date - 1.
Proof.
  intros ym mn t.
  assert (Hm : 0 <= mn <= 11) by (subst mn; div_lia).
  destruct (MakeDay_first_of_month ym mn Hm) as (Y & M & D).
  repeat split; assumption.
Qed.

Lemma DateFromTime_pos t : 1 <= DateFromTime t.
Proof.
  pose proof (DayWithinYear_range t) as R.
  unfold DateFromTime, MonthFromTime.
  set (dwy := DayWithinYear t) in *. set (leap := InLeapYear t).
  unfold monthOfDay.
  repeat match goal with
         | |- context [if dwy <? ?c then _ else _] => destruct (Z.ltb_spec dwy c)
         end; unfold dateOfDay; cbn [Z.eqb Pos.eqb]; lia.
Qed.

(** *** What getUTCOrdinalDay computes *)

Lemma Date_UTC_in_year y m dt :
  0 <= m <= 11 ->
  Date_UTC y m dt =
  TimeClip (msPerDay * (DayFromYear (MakeFullYear y) + monthStart m (leapFlag (MakeFullYear y)) + dt - 1)).
Proof.
  intros Hm. unfold Date_UTC. rewrite MakeDay_in_year by exact Hm.
  unfold MakeDate, MakeTime. f_equal. lia.
Qed.

Lemma getUTCOrdinalDay_unfold t :
  let yr := MakeFullYear (YearFromTime t) in
  getUTCOrdinalDay t =
  match TimeClip (msPerDay * (DayFromYear yr + ordinalInYear yr t)),
        TimeClip (msPerDay * DayFromYear yr) with
  | Some _, Some _ => Some (ordinalInYear yr t)
  | _, _ => None
  end.
Proof.
  intros yr. unfold getUTCOrdinalDay, getUTCFullYear, getUTCMonth, getUTCDate.
  rewrite !Date_UTC_in_year by (first [apply monthOfDay_range | lia]).
  fold yr. unfold ordinalInYear.
  replace (DayFromYear yr + monthStart 0 (leapFlag yr) + 1 - 1) with (DayFromYear yr)
    by (unfold monthStart; cbn [Z.eqb]; lia).
  replace (DayFromYear yr + monthStart (MonthFromTime t) (leapFlag yr) + DateFromTime t - 1)
    with (DayFromYear yr + (monthStart (MonthFromTime t) (leapFlag yr) + DateFromTime t - 1))
    by lia.
  set (o := monthStart (MonthFromTime t) (leapFlag yr) + DateFromTime t - 1).
  unfold TimeClip.
  destruct (maxTimeValue <? Z.abs (msPerDay * (DayFromYear yr + o)));
    destruct (maxTimeValue <? Z.abs (msPerDay * DayFromYear yr)); cbn [num_sub floor_div];
    try reflexivity.
  f_equal. change (24 * 60 * 60 * 1000) with msPerDay.
  replace (msPerDay * (DayFromYear yr + o) - msPerDay * DayFromYear yr) with (o * msPerDay) by lia.
  apply Z.div_mul. discriminate.
Qed.

Lemma ordinalInYear_nonneg yr t : 0 <= ordinalInYear yr t <= 365.
Proof.
  unfold ordinalInYear.
  pose proof (DayWithinYear_range t) as R.
  pose proof (DaysInYear_cases (YearFromTime t)) as C.
  pose proof (leapFlag_cases yr) as L.
  assert (IL : InLeapYear t = 0 \/ InLeapYear t = 1).
  { unfold InLeapYear. destruct (_ =? _); auto. }
  assert (ILD : DaysInYear (YearFromTime t) = 365 + InLeapYear t).
  { rewrite <- leapFlag_InLeapYear. apply leapFlag_DaysInYear. }
  unfold DateFromTime, MonthFromTime.
  set (dwy := DayWithinYear t) in *. set (leap := InLeapYear t) in *.
  unfold monthOfDay.
  repeat match goal with
         | |- context [if dwy <? ?c then _ else _] => destruct (Z.ltb_spec dwy c)
         end; unfold dateOfDay, monthStart; cbn [Z.eqb Pos.eqb]; lia.
Qed.

(** The Number returned is never negative and never above 365. *)
Lemma getUTCOrdinalDay_range t k : getUTCOrdinalDay t = Some k -> 0 <= k <= 365.
Proof.
  rewrite getUTCOrdinalDay_unfold. cbv zeta.
  destruct (TimeClip _); [ | discriminate].
  destruct (TimeClip _); [ | discriminate].
  intros [= <-]. apply ordinalInYear_nonneg.
Qed.

Lemma ordinalInYear_same_leap yr t :
  leapFlag yr = InLeapYear t -> ordinalInYear yr t = DayWithinYear t.
Proof.
  intros E. unfold ordinalInYear. rewrite E.
  unfold DateFromTime, MonthFromTime. apply monthStart_dateOfDay.
Qed.

Lemma InLeapYear_cases t : InLeapYear t = 0 \/ InLeapYear t = 1.
Proof. unfold InLeapYear. destruct (_ =? _); auto. Qed.

Lemma leapFlag_two_digit_year y : 1 <= y <= 99 -> leapFlag (1900 + y) = leapFlag y.
Proof.
  intros H. unfold leapFlag, DaysInYear.
  destruct (Z.eqb_spec (y mod 4) 0), (Z.eqb_spec (y mod 100) 0), (Z.eqb_spec (y mod 400) 0),
    (Z.eqb_spec ((1900 + y) mod 4) 0), (Z.eqb_spec ((1900 + y) mod 100) 0),
    (Z.eqb_spec ((1900 + y) mod 400) 0); cbn [negb Z.eqb Pos.eqb]; try reflexivity;
    exfalso; div_lia.
Qed.

Lemma ordinalInYear_leap_lost yr t :
  leapFlag yr = 0 -> InLeapYear t = 1 ->
  ordinalInYear yr t = if DayWithinYear t <? 60 then DayWithinYear t else DayWithinYear t - 1.
Proof.
  intros E1 E2. unfold ordinalInYear. rewrite E1.
  unfold DateFromTime, MonthFromTime. rewrite E2.
  pose proof (DayWithinYear_range t) as R.
  set (dwy := DayWithinYear t) in *.
  unfold monthOfDay.
  destruct (Z.ltb_spec dwy 60);
  repeat match goal with
         | |- context [if dwy <? ?c then _ else _] => destruct (Z.ltb_spec dwy c)
         end; unfold dateOfDay, monthStart; cbn [Z.eqb Pos.eqb]; lia.
Qed.

Lemma TimeClip_in_range x : - maxTimeValue <= x <= maxTimeValue -> TimeClip x = Some x.
Proof.
  intros H. unfold TimeClip. destruct (Z.ltb_spec maxTimeValue (Z.abs x)); [lia | reflexivity].
Qed.

Lemma TimeClip_out_of_range x : x < - maxTimeValue -> TimeClip x = None.
Proof.
  intros H. unfold TimeClip. destruct (Z.ltb_spec maxTimeValue (Z.abs x)); [reflexivity | lia].
Qed.

Lemma validTime_midnight t : validTime t -> - maxTimeValue <= msPerDay * Day t <= maxTimeValue.
Proof. unfold validTime, Day, maxTimeValue, msPerDay. intros H. div_lia. Qed.

Lemma MakeFullYear_cases y :
  (0 <= y <= 99 /\ MakeFullYear y = 1900 + y) \/ (~ 0 <= y <= 99 /\ MakeFullYear y = y).
Proof.
  unfold MakeFullYear.
  destruct (Z.leb_spec 0 y), (Z.leb_spec y 99); cbn [andb]; [left | right ..]; split; lia.
Qed.

Lemma two_digit_year_in_range y o :
  0 <= y <= 99 -> 0 <= o <= 365 ->
  - maxTimeValue <= msPerDay * (DayFromYear (1900 + y) + o) <= maxTimeValue.
Proof.
  intros Hy Ho. pose proof (DayFromYear_estimate (1900 + y)).
  unfold maxTimeValue, msPerDay. lia.
Qed.

(** Where getUTCOrdinalDay is the day of the year: every date, except the
    days of UTC year 0 after February 29 and the days of a year that begins
    before the first time value. *)
Lemma getUTCOrdinalDay_calendar t :
  validTime t ->
  - maxTimeValue <= TimeFromYear (YearFromTime t) ->
  (YearFromTime t = 0 -> DayWithinYear t < 60) ->
  getUTCOrdinalDay t = Some (DayWithinYear t).
Proof.
  intros V S Z0. rewrite getUTCOrdinalDay_unfold. cbv zeta.
  pose proof (DayWithinYear_range t) as R.
  pose proof (DaysInYear_cases (YearFromTime t)) as C.
  destruct (MakeFullYear_cases (YearFromTime t)) as [[Hy ->] | [Hy ->]].
  - pose proof (ordinalInYear_nonneg (1900 + YearFromTime t) t) as O.
    rewrite !TimeClip_in_range.
    + f_equal. destruct (Z.eq_dec (YearFromTime t) 0) as [E | N].
      * rewrite E in *. rewrite ordinalInYear_leap_lost.
        -- destruct (Z.ltb_spec (DayWithinYear t) 60); [reflexivity | lia].
        -- reflexivity.
        -- unfold InLeapYear. rewrite E. reflexivity.
      * apply ordinalInYear_same_leap. rewrite leapFlag_two_digit_year by lia.
        reflexivity.
    + pose proof (two_digit_year_in_range (YearFromTime t) 0 Hy ltac:(lia)) as B.
      rewrite Z.add_0_r in B. exact B.
    + apply two_digit_year_in_range; assumption.
  - rewrite (ordinalInYear_same_leap (YearFromTime t) t) by reflexivity.
    pose proof (validTime_midnight t V) as M.
    unfold DayWithinYear in *. unfold TimeFromYear in S.
    replace (DayFromYear (YearFromTime t) + (Day t - DayFromYear (YearFromTime t)))
      with (Day t) by lia.
    rewrite !TimeClip_in_range; [reflexivity | unfold msPerDay in *; lia | exact M].
Qed.

(** In UTC year 0, from March 1 on, the result is one less than the day of
    the year: [Date.UTC] reads year 0 as 1900, which has no February 29. *)
Lemma getUTCOrdinalDay_year_zero t :
  YearFromTime t = 0 -> 60 <= DayWithinYear t ->
  getUTCOrdinalDay t = Some (DayWithinYear t - 1).
Proof.
  intros E H. rewrite getUTCOrdinalDay_unfold. cbv zeta. rewrite E.
  change (MakeFullYear 0) with 1900.
  pose proof (ordinalInYear_nonneg 1900 t) as O.
  pose proof (two_digit_year_in_range 0 (ordinalInYear 1900 t) ltac:(lia) O) as B1.
  pose proof (two_digit_year_in_range 0 0 ltac:(lia) ltac:(lia)) as B2.
  change (1900 + 0) with 1900 in *. rewrite Z.add_0_r in B2.
  rewrite !TimeClip_in_range by assumption.
  f_equal. rewrite ordinalInYear_leap_lost.
  - destruct (Z.ltb_spec (DayWithinYear t) 60); [lia | reflexivity].
  - reflexivity.
  - unfold InLeapYear. rewrite E. reflexivity.
Qed.

(** In a year that begins before the first time value, [Date.UTC] has no
    time value for January 1, and the result is NaN. *)
Lemma getUTCOrdinalDay_NaN t :
  TimeFromYear (YearFromTime t) < - maxTimeValue -> getUTCOrdinalDay t = None.
Proof.
  intros S. rewrite getUTCOrdinalDay_unfold. cbv zeta.
  destruct (MakeFullYear_cases (YearFromTime t)) as [[Hy E] | [Hy ->]].
  - exfalso. pose proof (DayFromYear_estimate (YearFromTime t)).
    unfold TimeFromYear, maxTimeValue, msPerDay in S. lia.
  - unfold TimeFromYear in S. rewrite (TimeClip_out_of_range _ S).
    destruct (TimeClip _); reflexivity.
Qed.

Lemma getUTCOrdinalDay_total t :
  validTime t -> - maxTimeValue <= TimeFromYear (YearFromTime t) ->
  exists k, getUTCOrdinalDay t = Some k.
Proof.
  intros V S.
  destruct (Z.eq_dec (YearFromTime t) 0) as [E | N].
  - destruct (Z.lt_ge_cases (DayWithinYear t) 60).
    + eexists. apply getUTCOrdinalDay_calendar; auto.
    + eexists. apply getUTCOrdinalDay_year_zero; auto.
  - eexists. apply getUTCOrdinalDay_calendar; auto. intros; contradiction.
Qed.

(* ================================================================== *)
(** ** The ordinal day                                                 *)
(* ================================================================== *)

Lemma utcMidnight_Day t : utcMidnight t = msPerDay * Day t.
Proof. unfold utcMidnight, TimeWithinDay, Day, msPerDay. div_lia. Qed.

(** The specification's ordinal day is the standard's DayWithinYear. *)
Lemma ordinalDaySpec_DayWithinYear t : ordinalDaySpec t = DayWithinYear t.
Proof.
  unfold ordinalDaySpec, yearStart, TimeFromYear, DayWithinYear.
  rewrite utcMidnight_Day.
  replace (msPerDay * Day t - msPerDay * DayFromYear (YearFromTime t))
    with ((Day t - DayFromYear (YearFromTime t)) * msPerDay) by lia.
  apply Z.div_mul. discriminate.
Qed.

(** The specification's examples: January 1, 4 and 5 of 2024. *)
Lemma getUTCOrdinalDay_examples_2024 :
  getUTCOrdinalDay 1704067200000 = Some 0 /\
  getUTCOrdinalDay 1704326400000 = Some 3 /\
  getUTCOrdinalDay 1704412800000 = Some 4.
Proof. repeat split; reflexivity. Qed.

(** The division in getUTCOrdinalDay is exact: both calls of [Date.UTC]
    return midnights. *)
Lemma Date_UTC_midnight y m dt x : Date_UTC y m dt = Some x -> x mod msPerDay = 0.
Proof.
  unfold Date_UTC, TimeClip, MakeDate, MakeTime.
  destruct (_ <? _); [discriminate | ].
  intros [= <-].
  change (0 * msPerHour + 0 * msPerMinute + 0 * msPerSecond + 0) with 0.
  rewrite Z.add_0_r.
  apply Z.mod_mul. discriminate.
Qed.

Lemma getUTCOrdinalDay_division_exact t start today :
  Date_UTC (getUTCFullYear t) 0 1 = Some start ->
  Date_UTC (getUTCFullYear t) (getUTCMonth t) (getUTCDate t) = Some today ->
  (today - start) mod msPerDay = 0.
Proof.
  intros Hs Ht. apply Date_UTC_midnight in Hs, Ht.
  unfold msPerDay in *. div_lia.
Qed.

(** Given a Date of UTC year 0, which the script never does (its one call
    passes no argument, so the date is the current time), the function is a
    day short from March 1 on.  At 0000-03-01T00:00:00Z (time value
    -62162035200000) the UTC fields are year 0, month 2 (March), date 1; the
    date lies 60 whole days after the UTC midnight of January 1 of year 0, a
    leap year; and getUTCOrdinalDay returns 59, [Date.UTC] reading year 0
    as 1900. *)
Lemma getUTCOrdinalDay_year_zero_march_first :
  getUTCFullYear (-62162035200000) = 0 /\
  getUTCMonth (-62162035200000) = 2 /\
  getUTCDate (-62162035200000) = 1 /\
  ordinalDaySpec (-62162035200000) = 60 /\
  Date_UTC 0 0 1 = Some (-2208988800000) /\
  getUTCOrdinalDay (-62162035200000) = Some 59.
Proof. repeat split; reflexivity. Qed.

(** The first time value, -271821-04-20T00:00:00Z: January 1 of its year has
    no time value, and the result is NaN. *)
Lemma getUTCOrdinalDay_first_time_value :
  getUTCFullYear (- maxTimeValue) = -271821 /\
  ordinalDaySpec (- maxTimeValue) = 109 /\
  getUTCOrdinalDay (- maxTimeValue) = None.
Proof. repeat split; reflexivity. Qed.

(** For every other date the function returns the day of the year. *)
Lemma getUTCOrdinalDay_is_ordinalDaySpec t :
  validTime t ->
  - maxTimeValue <= yearStart t ->
  (getUTCFullYear t = 0 -> ordinalDaySpec t < 60) ->
  getUTCOrdinalDay t = Some (ordinalDaySpec t).
Proof.
  intros V S Z0. rewrite ordinalDaySpec_DayWithinYear in *.
  apply getUTCOrdinalDay_calendar; assumption.
Qed.

(* ================================================================== *)
(** ** Same UTC calendar day                                           *)
(* ================================================================== *)

Lemma Day_sameUTCDay t1 t2 : Day t1 = Day t2 -> sameUTCDay t1 t2.
Proof.
  intros E.
  assert (Y : YearFromTime t1 = YearFromTime t2) by (unfold YearFromTime; now rewrite E).
  assert (W : DayWithinYear t1 = DayWithinYear t2) by (unfold DayWithinYear; now rewrite E, Y).
  assert (L : InLeapYear t1 = InLeapYear t2) by (unfold InLeapYear; now rewrite Y).
  assert (M : MonthFromTime t1 = MonthFromTime t2) by (unfold MonthFromTime; now rewrite W, L).
  unfold sameUTCDay, getUTCFullYear, getUTCMonth, getUTCDate.
  repeat split; [exact Y | exact M | ].
  unfold DateFromTime. now rewrite W, L, M.
Qed.

Lemma sameUTCDay_Day t1 t2 : sameUTCDay t1 t2 -> Day t1 = Day t2.
Proof.
  unfold sameUTCDay, getUTCFullYear, getUTCMonth, getUTCDate.
  intros (Y & M & D).
  rewrite <- (MakeDay_of_fields t1), <- (MakeDay_of_fields t2).
  now rewrite Y, M, D.
Qed.

(** Any two instants of one UTC day, whatever the time of day. *)
Lemma sameUTCDay_time_of_day t ms :
  0 <= TimeWithinDay t + ms < msPerDay -> sameUTCDay t (t + ms).
Proof.
  intros H. apply Day_sameUTCDay. unfold Day, TimeWithinDay, msPerDay in *. div_lia.
Qed.

Lemma getUTCOrdinalDay_sameUTCDay t1 t2 :
  sameUTCDay t1 t2 -> getUTCOrdinalDay t1 = getUTCOrdinalDay t2.
Proof.
  intros (Y & M & D). unfold getUTCOrdinalDay. now rewrite Y, M, D.
Qed.

(** The UTC midnight of a date lies a whole number of days after the UTC
    midnight of January 1 of its year. *)
Lemma utcMidnight_whole_days t :
  utcMidnight t - yearStart t = msPerDay * ordinalDaySpec t.
Proof.
  rewrite ordinalDaySpec_DayWithinYear, utcMidnight_Day.
  unfold yearStart, TimeFromYear, DayWithinYear. lia.
Qed.

(** A clock that reads a time of UTC year 1 or later meets the conditions
    the next two theorems put on the date: its year begins within the
    range of time values, and is not year 0. *)
Lemma common_era_year_start t :
  1 <= getUTCFullYear t ->
  - maxTimeValue <= yearStart t /\ getUTCFullYear t <> 0.
Proof.
  unfold getUTCFullYear, yearStart, TimeFromYear. intros H.
  split; [ | lia].
  assert (D : DayFromYear 1 <= DayFromYear (YearFromTime t)).
  { destruct (Z.eq_dec 1 (YearFromTime t)) as [<- | N]; [lia | ].
    apply Z.lt_le_incl, DayFromYear_lt. lia. }
  change (DayFromYear 1) with (-719162) in D.
  unfold maxTimeValue, msPerDay. lia.
Qed.

(** So for every date of UTC year 1 or later the function returns the day
    of the year. *)
Lemma getUTCOrdinalDay_common_era t :
  validTime t -> 1 <= getUTCFullYear t ->
  getUTCOrdinalDay t = Some (ordinalDaySpec t).
Proof.
  intros V H. destruct (common_era_year_start t H) as [S N].
  apply getUTCOrdinalDay_is_ordinalDaySpec; [exact V | exact S | ].
  intros E. contradiction.
Qed.

(** C2: for every date the script can be given (any time value whose UTC
    year begins within the range of time values, the days of UTC year 0
    after February 29 apart; every date of year 1 or later is one),
    getUTCOrdinalDay returns the whole number of
    days from the UTC midnight of January 1 of the date's UTC year to the
    UTC midnight of the date; the difference of the two midnights is that
    number of days exactly; and the result is the same for every date with
    the same UTC year, month and day of the month.  The examples of
    January 1, 4 and 5 of 2024, with results 0, 3 and 4, are instances. *)
Theorem getUTCOrdinalDay_whole_days (t : Z) :
  validTime t ->
  - maxTimeValue <= yearStart t ->
  (getUTCFullYear t = 0 -> ordinalDaySpec t < 60) ->
  getUTCOrdinalDay t = Some (ordinalDaySpec t) /\
  utcMidnight t - yearStart t = msPerDay * ordinalDaySpec t /\
  (forall t', sameUTCDay t t' -> getUTCOrdinalDay t' = Some (ordinalDaySpec t)).
Proof.
  intros V S Z0.
  assert (E : getUTCOrdinalDay t = Some (ordinalDaySpec t)).
  { rewrite ordinalDaySpec_DayWithinYear in *.
    apply getUTCOrdinalDay_calendar; assumption. }
  split; [exact E | ]. split; [apply utcMidnight_whole_days | ].
  intros t' D. rewrite <- (getUTCOrdinalDay_sameUTCDay t t' D). exact E.
Qed.

Lemma getUTCOrdinalDay_whole_days_witness :
  (validTime 1704067200000 /\ - maxTimeValue <= yearStart 1704067200000 /\
   (getUTCFullYear 1704067200000 = 0 -> ordinalDaySpec 1704067200000 < 60) /\
   ordinalDaySpec 1704067200000 = 0 /\
   getUTCOrdinalDay 1704067200000 = Some 0) /\
  (validTime 1704326400000 /\ - maxTimeValue <= yearStart 1704326400000 /\
   (getUTCFullYear 1704326400000 = 0 -> ordinalDaySpec 1704326400000 < 60) /\
   ordinalDaySpec 1704326400000 = 3 /\
   getUTCOrdinalDay 1704326400000 = Some 3) /\
  (validTime 1704412800000 /\ - maxTimeValue <= yearStart 1704412800000 /\
   (getUTCFullYear 1704412800000 = 0 -> ordinalDaySpec 1704412800000 < 60) /\
   ordinalDaySpec 1704412800000 = 4 /\
   getUTCOrdinalDay 1704412800000 = Some 4 /\
   utcMidnight 1704412800000 - yearStart 1704412800000 = msPerDay * 4 /\
   forall t', sameUTCDay 1704412800000 t' -> getUTCOrdinalDay t' = Some 4).
Proof.
  assert (Y : forall t, getUTCFullYear t = 2024 ->
                (getUTCFullYear t = 0 -> ordinalDaySpec t < 60)).
  { intros t E0 E1. rewrite E0 in E1. discriminate. }
  assert (V1 : validTime 1704067200000) by (unfold validTime, maxTimeValue; lia).
  assert (V4 : validTime 1704326400000) by (unfold validTime, maxTimeValue; lia).
  assert (V5 : validTime 1704412800000) by (unfold validTime, maxTimeValue; lia).
  assert (S1 : - maxTimeValue <= yearStart 1704067200000).
  { change (yearStart 1704067200000) with 1704067200000. unfold maxTimeValue. lia. }
  assert (S4 : - maxTimeValue <= yearStart 1704326400000).
  { change (yearStart 1704326400000) with 1704067200000. unfold maxTimeValue. lia. }
  assert (S5 : - maxTimeValue <= yearStart 1704412800000).
  { change (yearStart 1704412800000) with 1704067200000. unfold maxTimeValue. lia. }
  split; [ | split].
  - split; [exact V1 | ]. split; [exact S1 | ]. split; [exact (Y 1704067200000 eq_refl) | ].
    split; [reflexivity | ].
    exact (proj1 (getUTCOrdinalDay_whole_days 1704067200000 V1 S1 (Y 1704067200000 eq_refl))).
  - split; [exact V4 | ]. split; [exact S4 | ]. split; [exact (Y 1704326400000 eq_refl) | ].
    split; [reflexivity | ].
    exact (proj1 (getUTCOrdinalDay_whole_days 1704326400000 V4 S4 (Y 1704326400000 eq_refl))).
  - split; [exact V5 | ]. split; [exact S5 | ]. split; [exact (Y 1704412800000 eq_refl) | ].
    split; [reflexivity | ].
    exact (getUTCOrdinalDay_whole_days 1704412800000 V5 S5 (Y 1704412800000 eq_refl)).
Defined.

(** C3: for any collection (the non-empty ones among them) and any two
    date-times on the same UTC calendar day, displayDailyProverb does the
    same: the same selection, the same page, the same completion.  Neither
    the time of day nor the host's local time zone enters the result. *)
Theorem displayDailyProverb_same_UTC_day (h1 h2 : Host) (st : State) :
  sameUTCDay (currentTime h1) (currentTime h2) ->
  displayDailyProverb h1 st = displayDailyProverb h2 st.
Proof.
  intros S. unfold displayDailyProverb, dailyIndex.
  now rewrite (getUTCOrdinalDay_sameUTCDay _ _ S).
Qed.

Lemma displayDailyProverb_same_UTC_day_witness :
  sameUTCDay 1704412800000 (1704412800000 + 86399999) /\
  displayDailyProverb (mkHost 1704412800000 0) sampleState =
  displayDailyProverb (mkHost (1704412800000 + 86399999) 16200000) sampleState.
Proof.
  split; [repeat split; reflexivity | ].
  apply (displayDailyProverb_same_UTC_day (mkHost 1704412800000 0)
           (mkHost (1704412800000 + 86399999) 16200000) sampleState).
  repeat split; reflexivity.
Defined.

(* ================================================================== *)
(** ** Selection                                                       *)
(* ================================================================== *)

Lemma array_length_pos l : l <> [] -> 0 < array_length l.
Proof. destruct l; [contradiction | ]. intros _. unfold array_length. cbn [List.length]. lia. Qed.

(** An index from 0 to length - 1 reads an element of the array. *)
Lemma array_get_in_bounds l i :
  0 <= i < array_length l ->
  exists c, array_get l (Some i) = Some c /\ nth_error l (Z.to_nat i) = Some c /\ In c l.
Proof.
  intros H. unfold array_get.
  destruct (Z.ltb_spec i 0); [lia | ].
  destruct (nth_error l (Z.to_nat i)) as [c | ] eqn:E.
  - exists c. repeat split. eapply nth_error_In; eassumption.
  - apply nth_error_None in E. unfold array_length in H. lia.
Qed.

(** Whatever the index, the array gives an element of its own or nothing. *)
Lemma array_get_member l i c : array_get l i = Some c -> In c l.
Proof.
  unfold array_get. destruct i as [z | ]; [ | discriminate].
  destruct (z <? 0); [discriminate | ]. apply nth_error_In.
Qed.

Lemma dailyIndex_mod l t k :
  l <> [] -> getUTCOrdinalDay t = Some k ->
  dailyIndex l t = Some (k mod array_length l) /\ 0 <= k mod array_length l < array_length l.
Proof.
  intros Hl Hk. pose proof (array_length_pos l Hl) as P.
  pose proof (getUTCOrdinalDay_range t k Hk) as R.
  unfold dailyIndex. rewrite Hk. cbn [num_rem].
  destruct (Z.eqb_spec (array_length l) 0); [lia | ].
  rewrite Z.rem_mod_nonneg by lia.
  split; [reflexivity | apply Z.mod_pos_bound; lia].
Qed.

(** With the index within the array, displayDailyProverb selects the record
    there and shows it. *)
Lemma displayDailyProverb_at_index (h : Host) (st : State) (i : Z) :
  dailyIndex (proverbs st) (currentTime h) = Some i ->
  0 <= i < array_length (proverbs st) ->
  exists c,
    nth_error (proverbs st) (Z.to_nat i) = Some c /\
    displayDailyProverb h st = mkResult (selected c st) [] Normal.
Proof.
  intros Hi Hr.
  destruct (array_get_in_bounds _ _ Hr) as (c & Hg & Hn & _).
  exists c. split; [exact Hn | ].
  unfold displayDailyProverb.
  destruct (Z.eqb_spec (array_length (proverbs st)) 0); [lia | ].
  rewrite Hi. cbn [set_currentProverb proverbs]. rewrite Hg.
  reflexivity.
Qed.

(** Whatever Number getUTCOrdinalDay returns for the date, the record at
    that Number modulo the length is selected: that position is within the
    array, the record becomes the current one and its three fields are put
    on the page. *)
Lemma displayDailyProverb_selects (h : Host) (st : State) (k : Z) :
  proverbs st <> [] ->
  getUTCOrdinalDay (currentTime h) = Some k ->
  exists c,
    nth_error (proverbs st) (Z.to_nat (k mod array_length (proverbs st))) = Some c /\
    displayDailyProverb h st = mkResult (selected c st) [] Normal.
Proof.
  intros Hl Hk.
  destruct (dailyIndex_mod _ _ _ Hl Hk) as [Hi Hr].
  exact (displayDailyProverb_at_index h st _ Hi Hr).
Qed.

Lemma displayDailyProverb_selects_witness :
  sampleProverbs <> [] /\
  getUTCOrdinalDay 1704412800000 = Some 4 /\
  exists c,
    nth_error sampleProverbs (Z.to_nat (4 mod 3)) = Some c /\
    displayDailyProverb (mkHost 1704412800000 0) sampleState =
    mkResult (selected c sampleState) [] Normal.
Proof.
  split; [discriminate | ]. split; [reflexivity | ].
  apply (displayDailyProverb_selects (mkHost 1704412800000 0) sampleState 4).
  - discriminate.
  - reflexivity.
Defined.

(** C1: for every non-empty collection and every date the script can be
    given as the current time (any time value whose UTC year begins within
    the range of time values, the days of UTC year 0 after February 29
    apart), the ordinal day the script computes is the zero-based day of the
    UTC year, the index is that day modulo the length of the collection,
    and displayDailyProverb selects the record at that position: the record
    becomes the current one and its three fields are put on the page. *)
Theorem displayDailyProverb_day_of_year (h : Host) (st : State) :
  proverbs st <> [] ->
  validTime (currentTime h) ->
  - maxTimeValue <= yearStart (currentTime h) ->
  (getUTCFullYear (currentTime h) = 0 -> ordinalDaySpec (currentTime h) < 60) ->
  getUTCOrdinalDay (currentTime h) = Some (ordinalDaySpec (currentTime h)) /\
  dailyIndex (proverbs st) (currentTime h) =
    Some (ordinalDaySpec (currentTime h) mod array_length (proverbs st)) /\
  exists c,
    nth_error (proverbs st)
      (Z.to_nat (ordinalDaySpec (currentTime h) mod array_length (proverbs st))) = Some c /\
    displayDailyProverb h st = mkResult (selected c st) [] Normal.
Proof.
  intros Hl V S Z0.
  pose proof (getUTCOrdinalDay_is_ordinalDaySpec _ V S Z0) as Hk.
  destruct (dailyIndex_mod _ _ _ Hl Hk) as [Hi Hr].
  split; [exact Hk | ]. split; [exact Hi | ].
  exact (displayDailyProverb_at_index h st _ Hi Hr).
Qed.

Lemma displayDailyProverb_day_of_year_witness :
  proverbs sampleState <> [] /\
  validTime 1704412800000 /\
  - maxTimeValue <= yearStart 1704412800000 /\
  (getUTCFullYear 1704412800000 = 0 -> ordinalDaySpec 1704412800000 < 60) /\
  ordinalDaySpec 1704412800000 = 4 /\
  getUTCOrdinalDay 1704412800000 = Some (ordinalDaySpec 1704412800000) /\
  dailyIndex (proverbs sampleState) 1704412800000 =
    Some (ordinalDaySpec 1704412800000 mod array_length (proverbs sampleState)) /\
  exists c,
    nth_error (proverbs sampleState)
      (Z.to_nat (ordinalDaySpec 1704412800000 mod array_length (proverbs sampleState))) = Some c /\
    displayDailyProverb (mkHost 1704412800000 0) sampleState =
    mkResult (selected c sampleState) [] Normal.
Proof.
  assert (V : validTime 1704412800000) by (unfold validTime, maxTimeValue; lia).
  assert (S : - maxTimeValue <= yearStart 1704412800000).
  { change (yearStart 1704412800000) with 1704067200000. unfold maxTimeValue. lia. }
  assert (Z0 : getUTCFullYear 1704412800000 = 0 -> ordinalDaySpec 1704412800000 < 60).
  { intros _. change (ordinalDaySpec 1704412800000) with 4. lia. }
  split; [discriminate | ]. split; [exact V | ]. split; [exact S | ]. split; [exact Z0 | ].
  split; [reflexivity | ].
  apply (displayDailyProverb_day_of_year (mkHost 1704412800000 0) sampleState);
    [discriminate | exact V | exact S | exact Z0].
Defined.

(** X6: the selection alone, in calendar terms: for a date whose year
    begins within the range of time values, and which is not a day of UTC
    year 0 after February 29, the position is the day of the year modulo
    the length. *)
Lemma displayDailyProverb_calendar (h : Host) (st : State) :
  proverbs st <> [] ->
  validTime (currentTime h) ->
  - maxTimeValue <= yearStart (currentTime h) ->
  (getUTCFullYear (currentTime h) = 0 -> ordinalDaySpec (currentTime h) < 60) ->
  exists c,
    nth_error (proverbs st)
      (Z.to_nat (ordinalDaySpec (currentTime h) mod array_length (proverbs st))) = Some c /\
    displayDailyProverb h st = mkResult (selected c st) [] Normal.
Proof.
  intros Hl V S Z0.
  pose proof (getUTCOrdinalDay_is_ordinalDaySpec _ V S Z0) as Hk.
  destruct (dailyIndex_mod _ _ _ Hl Hk) as [Hi Hr].
  exact (displayDailyProverb_at_index h st _ Hi Hr).
Qed.

(** C4: for a collection of length N > 0 and two dates of one calendar year
    whose ordinal days are k and k + 1, the index displayDailyProverb uses
    for the second is the index for the first plus 1, modulo N. *)
Theorem dailyIndex_consecutive (l : list ProverbRecord) (d1 d2 k : Z) :
  l <> [] ->
  getUTCFullYear d1 = getUTCFullYear d2 ->
  getUTCOrdinalDay d1 = Some k ->
  getUTCOrdinalDay d2 = Some (k + 1) ->
  exists i,
    dailyIndex l d1 = Some i /\
    dailyIndex l d2 = Some ((i + 1) mod array_length l).
Proof.
  intros Hl _ H1 H2.
  destruct (dailyIndex_mod _ _ _ Hl H1) as [E1 _].
  destruct (dailyIndex_mod _ _ _ Hl H2) as [E2 _].
  exists (k mod array_length l). split; [exact E1 | ].
  rewrite E2. f_equal.
  pose proof (array_length_pos l Hl).
  rewrite Z.add_mod_idemp_l by lia. reflexivity.
Qed.

Lemma dailyIndex_consecutive_witness :
  sampleProverbs <> [] /\
  getUTCFullYear 1704326400000 = getUTCFullYear 1704412800000 /\
  getUTCOrdinalDay 1704326400000 = Some 3 /\
  getUTCOrdinalDay 1704412800000 = Some (3 + 1) /\
  exists i,
    dailyIndex sampleProverbs 1704326400000 = Some i /\
    dailyIndex sampleProverbs 1704412800000 = Some ((i + 1) mod array_length sampleProverbs).
Proof.
  split; [discriminate | ]. repeat (split; [reflexivity | ]).
  apply (dailyIndex_consecutive sampleProverbs 1704326400000 1704412800000 3);
    [discriminate | reflexivity ..].
Defined.

(** X5: consecutive calendar days of one year have consecutive ordinal
    days, in every year but UTC year 0 (see getUTCOrdinalDay_year_zero). *)
Lemma getUTCOrdinalDay_next_day t k :
  validTime t -> validTime (t + msPerDay) ->
  getUTCFullYear (t + msPerDay) = getUTCFullYear t ->
  getUTCFullYear t <> 0 ->
  getUTCOrdinalDay t = Some k ->
  getUTCOrdinalDay (t + msPerDay) = Some (k + 1).
Proof.
  unfold getUTCFullYear. intros V V' Y N H.
  destruct (Z.lt_ge_cases (TimeFromYear (YearFromTime t)) (- maxTimeValue)) as [S | S].
  - rewrite (getUTCOrdinalDay_NaN t S) in H. discriminate.
  - rewrite getUTCOrdinalDay_calendar in H by (auto; intros; contradiction).
    injection H as <-.
    rewrite getUTCOrdinalDay_calendar; [ | exact V' | now rewrite Y | rewrite Y; intros; contradiction].
    f_equal. unfold DayWithinYear. rewrite Y.
    assert (Day (t + msPerDay) = Day t + 1) by (unfold Day, msPerDay; div_lia).
    lia.
Qed.

(** C5: with the collection empty, displayDailyProverb (for every date) and
    displayRandomProverb (for every random Number) return normally, leave
    every variable and the page as they were, and do nothing else. *)
Theorem display_empty_collection (h : Host) (random : spec_float) (st : State) :
  proverbs st = [] ->
  displayDailyProverb h st = mkResult st [] Normal /\
  displayRandomProverb random st = mkResult st [] Normal.
Proof.
  intros E. unfold displayDailyProverb, displayRandomProverb. rewrite E.
  split; reflexivity.
Qed.

Lemma display_empty_collection_witness :
  proverbs (initial samplePage) = [] /\
  displayDailyProverb (mkHost 1704412800000 0) (initial samplePage) =
    mkResult (initial samplePage) [] Normal /\
  displayRandomProverb (S754_zero false) (initial samplePage) =
    mkResult (initial samplePage) [] Normal.
Proof.
  split; [reflexivity | ].
  apply (display_empty_collection (mkHost 1704412800000 0) (S754_zero false)
           (initial samplePage)).
  reflexivity.
Defined.

(* ================================================================== *)
(** ** binary64 multiplication of a Number below 1 by a length         *)
(* ================================================================== *)

Lemma digits2_pos_size p : digits2_pos p = Pos.size p.
Proof. induction p as [p IH | p IH | ]; cbn; [now rewrite IH .. | reflexivity]. Qed.

(** 2^(digits - 1) <= p < 2^digits *)
Lemma digits2_pos_bounds p :
  2 ^ (Z.pos (digits2_pos p) - 1) <= Z.pos p < 2 ^ Z.pos (digits2_pos p).
Proof.
  rewrite digits2_pos_size.
  pose proof (Pos.size_gt p) as G. pose proof (Pos.size_le p) as L.
  apply Pos2Z.pos_lt_pos in G. apply Pos2Z.pos_le_pos in L.
  rewrite Pos2Z.inj_pow in G, L.
  change (Z.pos p~0) with (2 * Z.pos p) in L.
  split; [ | exact G].
  assert (E : 2 ^ Z.pos (Pos.size p) = 2 * 2 ^ (Z.pos (Pos.size p) - 1)).
  { rewrite <- Z.pow_succ_r by lia. f_equal. lia. }
  lia.
Qed.

(** *** Shifting right, one bit at a time *)

Section ShiftRight.

(** The mantissa being shifted. *)
Variable N : Z.

Lemma shr_1_shifted P mrs : shifted N P mrs -> shifted N (2 * P) (shr_1 mrs).
Proof.
  destruct mrs as [m r s]. unfold shifted. cbn [shr_m shr_r].
  intros (HP & Hm & HN & _).
  destruct m as [ | [p | p | ] | p]; cbn [shr_1 shr_m shr_r];
    try change (Z.pos p~1) with (2 * Z.pos p + 1) in *;
    try change (Z.pos p~0) with (2 * Z.pos p) in *;
    repeat split; try lia; intros; discriminate.
Qed.

Lemma iter_pos_shifted (p : positive) : forall P mrs,
  shifted N P mrs -> shifted N (P * 2 ^ Z.pos p) (iter_pos shr_1 p mrs).
Proof.
  induction p as [p IH | p IH | ]; intros P mrs H; cbn [iter_pos].
  - replace (P * 2 ^ Z.pos p~1) with (2 * P * 2 ^ Z.pos p * 2 ^ Z.pos p).
    + apply IH, IH, shr_1_shifted, H.
    + replace (Z.pos p~1) with (1 + Z.pos p + Z.pos p) by lia.
      rewrite !Z.pow_add_r, Z.pow_1_r by lia. ring.
  - replace (P * 2 ^ Z.pos p~0) with (P * 2 ^ Z.pos p * 2 ^ Z.pos p).
    + apply IH, IH, H.
    + replace (Z.pos p~0) with (Z.pos p + Z.pos p) by lia.
      rewrite Z.pow_add_r by lia. ring.
  - replace (P * 2 ^ 1) with (2 * P) by (rewrite Z.pow_1_r; ring).
    apply shr_1_shifted, H.
Qed.

Lemma shifted_start l : 0 <= N -> l = loc_Exact -> shifted N 1 (shr_record_of_loc N l).
Proof.
  intros H ->. unfold shifted. cbn [shr_record_of_loc shr_m shr_r].
  repeat split; try lia; intros; discriminate.
Qed.

(** [shr] by [k] bits, from an exact mantissa. *)
Lemma shr_shifted e k :
  0 <= N ->
  let res := shr (shr_record_of_loc N loc_Exact) e k in
  exists j, (j = 0 \/ 0 < k /\ j = k) /\ snd res = e + j /\ shifted N (2 ^ j) (fst res).
Proof.
  intros HN. destruct k as [ | p | p]; cbn [shr fst snd].
  - exists 0. split; [now left | ]. split; [lia | ]. apply shifted_start; auto.
  - exists (Z.pos p). split; [right; lia | ]. split; [reflexivity | ].
    replace (2 ^ Z.pos p) with (1 * 2 ^ Z.pos p) by ring.
    apply iter_pos_shifted, shifted_start; auto.
  - exists 0. split; [now left | ]. split; [lia | ]. apply shifted_start; auto.
Qed.

(** Rounding to nearest, ties to even, after a shift: at most half of P is
    added to what the mantissa stood for. *)
Lemma round_nearest_even_shifted P mrs :
  shifted N P mrs ->
  let m := round_nearest_even (shr_m mrs) (loc_of_shr_record mrs) in
  0 <= m /\ 2 * m * P <= 2 * N + P /\ (P = 1 -> shr_r mrs = false -> m = N).
Proof.
  destruct mrs as [m r s]. unfold shifted. cbn [shr_m shr_r].
  intros (HP & Hm & HN & Hr).
  destruct r, s; cbn [loc_of_shr_record round_nearest_even].
  - specialize (Hr eq_refl). nia.
  - specialize (Hr eq_refl). destruct (Z.even m); nia.
  - split; [lia | ]. split; [nia | ]. intros -> _. lia.
  - split; [lia | ]. split; [nia | ]. intros -> _. lia.
Qed.

End ShiftRight.

Lemma fexp_binary64 x : fexp prec emax x = Z.max (x - 53) (-1074).
Proof. reflexivity. Qed.

Lemma pow2_pos x : 0 <= x -> 0 < 2 ^ x.
Proof. intros. apply Z.pow_pos_nonneg; lia. Qed.

Lemma pow2_split a b c : 0 <= b -> 0 <= c -> a = b + c -> 2 ^ a = 2 ^ b * 2 ^ c.
Proof. intros Hb Hc ->. apply Z.pow_add_r; assumption. Qed.

Lemma mul_lt_cancel_r a b c : 0 < c -> a * c < b * c -> a < b.
Proof. intros Hc H. apply (Z.mul_lt_mono_pos_r c); assumption. Qed.

(** The product of a Number below 1 and an integer n, rounded: the exact
    product [N * 2^e] is at most [(1 - 2^-53) n], and rounding adds at most
    half a unit in the last place, so the result stays below n. *)
Lemma binary_round_aux_below (N : positive) (e n : Z) :
  e < 0 -> 1 <= n < 2 ^ 53 ->
  Z.pos N * 2 ^ 53 <= (2 ^ 53 - 1) * (n * 2 ^ (- e)) ->
  exists i,
    Math_floor (binary_round_aux prec emax false (Z.pos N) e loc_Exact) = Some i /\
    0 <= i < n.
Proof.
  intros He Hn Hstar.
  assert (HE : 0 < 2 ^ (- e)) by (apply pow2_pos; lia).
  remember (n * 2 ^ (- e)) as T eqn:HTdef.
  assert (HT : 2 ^ (- e) <= T).
  { rewrite HTdef. rewrite <- (Z.mul_1_l (2 ^ (- e))) at 1.
    apply Z.mul_le_mono_nonneg_r; lia. }
  assert (HTlt : T < 2 ^ 53 * 2 ^ (- e)).
  { rewrite HTdef. apply Z.mul_lt_mono_pos_r; lia. }
  change (2 ^ 53) with 9007199254740992 in *.
  assert (HNT : Z.pos N < T) by lia.
  pose proof (digits2_pos_bounds N) as HD.
  unfold binary_round_aux, shr_fexp.
  cbn [Zdigits2]. rewrite fexp_binary64.
  set (d := Z.pos (digits2_pos N)) in *.
  set (k := Z.max (d + e - 53) (-1074) - e).
  assert (Hk : 0 < k -> 9007199254740992 * 2 ^ (k - 1) < T).
  { intros Hpos. change 9007199254740992 with (2 ^ 53).
    rewrite <- (pow2_split (k + 52) 53 (k - 1)) by lia.
    unfold k in *.
    destruct (Z.max_spec (d + e - 53) (-1074)) as [[_ ->] | [_ ->]].
    - replace (-1074 - e + 52) with (- e - 1022) by lia.
      assert (2 ^ (- e - 1022) < 2 ^ (- e)) by (apply Z.pow_lt_mono_r; lia).
      lia.
    - replace (d + e - 53 - e + 52) with (d - 1) by lia. lia. }
  clearbody k d.
  destruct (shr_shifted (Z.pos N) e k ltac:(lia)) as (j & Hjk & He1 & Hsh).
  destruct (shr (shr_record_of_loc (Z.pos N) loc_Exact) e k) as [mrs1 e1].
  cbn [fst snd] in He1, Hsh.
  destruct (round_nearest_even_shifted _ _ _ Hsh) as (Hm0 & Hm & _).
  set (m := round_nearest_even (shr_m mrs1) (loc_of_shr_record mrs1)) in *.
  clearbody m.
  assert (Hj0 : 0 <= j) by lia.
  assert (HA : 0 < 2 ^ j) by (apply pow2_pos; lia).
  assert (HmT : m * 2 ^ j < T).
  { destruct Hjk as [-> | [Hpos ->]].
    - change (2 ^ 0) with 1 in *. lia.
    - specialize (Hk Hpos).
      rewrite (pow2_split k 1 (k - 1)) in Hm |- * by lia.
      change (2 ^ 1) with 2 in *.
      remember (2 ^ (k - 1)) as half eqn:Hhalf.
      remember (m * (2 * half)) as X eqn:HX.
      replace (2 * m * (2 * half)) with (2 * X) in Hm by (rewrite HX; ring).
      lia. }
  destruct (shr_shifted m e1 (fexp prec emax (Zdigits2 m + e1) - e1) Hm0)
    as (j2 & Hj2k & He2 & Hsh2).
  assert (Hj20 : 0 <= j2) by lia.
  destruct (shr (shr_record_of_loc m loc_Exact) e1 _) as [mrs2 e2].
  cbn [fst snd] in He2, Hsh2.
  destruct Hsh2 as (HB & Hm20 & [Hm2 _] & _).
  assert (HAB : 0 < 2 ^ (j + j2)) by (apply pow2_pos; lia).
  assert (Hm2T : shr_m mrs2 * 2 ^ (j + j2) < T).
  { rewrite (pow2_split (j + j2) j2 j) by lia. rewrite Z.mul_assoc.
    apply Z.le_lt_trans with (m * 2 ^ j); [ | exact HmT].
    apply Z.mul_le_mono_nonneg_r; lia. }
  assert (He2' : e2 = e + (j + j2)) by lia.
  clear Hsh Hm HmT Hm2 He1 He2 Hjk Hj2k Hk HD Hstar.
  destruct (shr_m mrs2) as [ | q | q] eqn:Eq.
  - exists 0. split; [reflexivity | lia].
  - assert (Hsmall : j + j2 < 53 - e).
    { apply (Z.pow_lt_mono_r_iff 2); [lia | lia | ].
      assert (H1 : 2 ^ (j + j2) <= Z.pos q * 2 ^ (j + j2)).
      { rewrite <- (Z.mul_1_l (2 ^ (j + j2))) at 1.
        apply Z.mul_le_mono_nonneg_r; lia. }
      rewrite (pow2_split (53 - e) 53 (- e)) by lia.
      change (2 ^ 53) with 9007199254740992. lia. }
    destruct (Z.leb_spec e2 (emax - prec)) as [_ | Hover];
      [ | unfold emax, prec in Hover; lia].
    cbn [Math_floor].
    destruct (Z.leb_spec 0 e2) as [Hpos | Hneg].
    + exists (Z.pos q * 2 ^ e2). split; [reflexivity | ].
      assert (0 < 2 ^ e2) by (apply pow2_pos; lia).
      split; [apply Z.mul_nonneg_nonneg; lia | ].
      apply (mul_lt_cancel_r _ _ (2 ^ (- e)) HE).
      rewrite <- HTdef, <- Z.mul_assoc, <- (pow2_split (j + j2) e2 (- e)) by lia.
      exact Hm2T.
    + exists (Z.pos q / 2 ^ (- e2)). split; [reflexivity | ].
      assert (0 < 2 ^ (- e2)) by (apply pow2_pos; lia).
      split; [apply Z.div_pos; lia | ].
      apply Z.div_lt_upper_bound; [lia | ].
      apply (mul_lt_cancel_r _ _ (2 ^ (j + j2)) HAB).
      replace (2 ^ (- e2) * n * 2 ^ (j + j2)) with (n * (2 ^ (- e2) * 2 ^ (j + j2))) by ring.
      rewrite <- (pow2_split (- e) (- e2) (j + j2)) by lia.
      rewrite <- HTdef. exact Hm2T.
  - lia.
Qed.

(** A mantissa that needs no shift is returned as it is. *)
Lemma binary_round_aux_exact (s : bool) (N : positive) (e : Z) :
  fexp prec emax (Z.pos (digits2_pos N) + e) = e -> e <= emax - prec ->
  binary_round_aux prec emax s (Z.pos N) e loc_Exact = S754_finite s N e.
Proof.
  intros Hc He. unfold binary_round_aux, shr_fexp.
  cbn [Zdigits2]. rewrite Hc, Z.sub_diag.
  cbn [shr shr_record_of_loc shr_m loc_of_shr_record round_nearest_even Zdigits2].
  rewrite Hc, Z.sub_diag. cbn [shr shr_record_of_loc shr_m].
  destruct (Z.leb_spec e (emax - prec)); [reflexivity | lia].
Qed.

Lemma iter_xO_digits p n : digits2_pos (Pos.iter xO p n) = (digits2_pos p + n)%positive.
Proof.
  induction n as [ | n IH] using Pos.peano_ind.
  - cbn. lia.
  - rewrite Pos.iter_succ. cbn [digits2_pos]. rewrite IH. lia.
Qed.

Lemma iter_xO_value p n : Z.pos (Pos.iter xO p n) = Z.pos p * 2 ^ Z.pos n.
Proof.
  induction n as [ | n IH] using Pos.peano_ind.
  - cbn [Pos.iter]. rewrite Z.pow_1_r. lia.
  - rewrite Pos.iter_succ, Pos2Z.inj_succ, Z.pow_succ_r by lia.
    change (Z.pos (Pos.iter xO p n)~0) with (2 * Z.pos (Pos.iter xO p n)).
    rewrite IH. ring.
Qed.

(** An array length, as a Number: a binary64 value that stands for the
    length exactly. *)
Lemma b64_of_Z_exact (p : positive) :
  Z.pos p < 2 ^ 53 ->
  exists ml el,
    b64_of_Z (Z.pos p) = S754_finite false ml el /\
    el <= 0 /\ Z.pos ml = Z.pos p * 2 ^ (- el).
Proof.
  intros Hp. pose proof (digits2_pos_bounds p) as HD.
  assert (Hd : Z.pos (digits2_pos p) <= 53).
  { destruct (Z.le_gt_cases (Z.pos (digits2_pos p)) 53) as [L | G]; [exact L | exfalso].
    assert (2 ^ 53 <= 2 ^ (Z.pos (digits2_pos p) - 1)) by (apply Z.pow_le_mono_r; lia).
    lia. }
  unfold b64_of_Z, binary_normalize, binary_round, shl_align.
  rewrite fexp_binary64, Z.add_0_r, Z.sub_0_r.
  rewrite Z.max_l by lia.
  destruct (Z.pos (digits2_pos p) - 53) as [ | q | q] eqn:Eq; try lia.
  - exists p, 0. split; [ | split; [lia | cbn; lia] ].
    apply binary_round_aux_exact; [ | unfold emax, prec; lia].
    rewrite fexp_binary64. lia.
  - exists (Pos.iter xO p q), (Z.neg q). split; [ | split; [lia | ] ].
    + apply binary_round_aux_exact; [ | unfold emax, prec; lia].
      rewrite fexp_binary64, iter_xO_digits, Pos2Z.inj_add. lia.
    + rewrite iter_xO_value. reflexivity.
Qed.


Lemma b64_one_value : b64_one = S754_finite false 4503599627370496 (-52).
Proof. vm_compute. reflexivity. Qed.

Lemma unitInterval_cases (r : spec_float) :
  unitInterval r = true ->
  (exists s, r = S754_zero s) \/
  (exists mr er, r = S754_finite false mr er /\ er <= -53 /\ Z.pos mr < 2 ^ 53).
Proof.
  unfold unitInterval. rewrite b64_one_value. intros H.
  apply andb_prop in H as [H Hlt]. apply andb_prop in H as [Hv Hle].
  destruct r as [s | s | | s m e].
  - left. exists s. reflexivity.
  - destruct s; cbn in Hle, Hlt; discriminate.
  - discriminate.
  - right. destruct s; [discriminate | ].
    exists m, e. split; [reflexivity | ].
    cbn [valid_binary] in Hv. unfold bounded, canonical_mantissa in Hv.
    apply andb_prop in Hv as [Hc _]. apply Z.eqb_eq in Hc.
    rewrite fexp_binary64 in Hc.
    pose proof (digits2_pos_bounds m) as HD.
    assert (Hd : Z.pos (digits2_pos m) <= 53) by lia.
    assert (Hm : Z.pos m < 2 ^ 53).
    { apply Z.lt_le_trans with (2 ^ Z.pos (digits2_pos m)); [lia | ].
      apply Z.pow_le_mono_r; lia. }
    split; [ | exact Hm].
    unfold SFltb, SFcompare in Hlt.
    destruct (Z.compare_spec e (-52)) as [E | L | G]; [ | lia | discriminate].
    exfalso. subst e.
    assert (Z.pos (digits2_pos m) = 53) by lia.
    assert (Hge : 4503599627370496 <= Z.pos m).
    { change 4503599627370496 with (2 ^ 52).
      replace 52 with (Z.pos (digits2_pos m) - 1) by lia. lia. }
    rewrite Pos.compare_cont_spec in Hlt.
    destruct (Pos.compare_spec m 4503599627370496) as [E | L | G]; cbn [Pos.switch_Eq] in Hlt; try discriminate.
    apply Pos2Z.pos_lt_pos in L. clear - L Hge. lia.
Qed.

(** The index displayRandomProverb computes is an integer from 0 to
    length - 1, whatever [Math.random()] returned. *)
Lemma randomIndex_in_bounds (l : list ProverbRecord) (random : spec_float) :
  l <> [] -> array_length l < 2 ^ 32 -> unitInterval random = true ->
  exists i, randomIndex l random = Some i /\ 0 <= i < array_length l.
Proof.
  intros Hl Hlen Hr. pose proof (array_length_pos l Hl) as Hpos.
  unfold randomIndex.
  destruct (array_length l) as [ | p | p] eqn:En; try lia.
  assert (Hp53 : Z.pos p < 2 ^ 53).
  { apply Z.lt_trans with (2 ^ 32); [exact Hlen | reflexivity]. }
  destruct (b64_of_Z_exact p Hp53) as (ml & el & -> & Hel & Hml).
  destruct (unitInterval_cases random Hr) as [[s ->] | (mr & er & -> & Her & Hmr)].
  - exists 0. split; [reflexivity | lia].
  - unfold b64_mul, SFmul. cbn [xorb].
    apply binary_round_aux_below; [lia | lia | ].
    assert (HA : 0 < 2 ^ (- el)) by (apply pow2_pos; lia).
    assert (HB : 2 ^ 53 <= 2 ^ (- er)) by (apply Z.pow_le_mono_r; lia).
    rewrite (pow2_split (- (er + el)) (- er) (- el)) by lia.
    rewrite Pos2Z.inj_mul, Hml.
    replace (Z.pos mr * (Z.pos p * 2 ^ (- el)) * 2 ^ 53)
      with (Z.pos mr * 2 ^ 53 * (Z.pos p * 2 ^ (- el))) by ring.
    replace ((2 ^ 53 - 1) * (Z.pos p * (2 ^ (- er) * 2 ^ (- el))))
      with ((2 ^ 53 - 1) * 2 ^ (- er) * (Z.pos p * 2 ^ (- el))) by ring.
    apply Z.mul_le_mono_nonneg_r; [lia | ].
    apply Z.le_trans with ((2 ^ 53 - 1) * 2 ^ 53).
    + apply Z.mul_le_mono_nonneg_r; lia.
    + apply Z.mul_le_mono_nonneg_l; [lia | exact HB].
Qed.

(** C8: for every non-empty collection (of a length a JavaScript array can
    have, below 2^32) and every Number [Math.random()] can return,
    displayRandomProverb computes an index i with 0 <= i < length, the
    array has a record at i, and that record becomes the current one: the
    read is never out of bounds. *)
Theorem displayRandomProverb_in_bounds (random : spec_float) (st : State) :
  proverbs st <> [] ->
  array_length (proverbs st) < 2 ^ 32 ->
  unitInterval random = true ->
  exists i c,
    randomIndex (proverbs st) random = Some i /\
    0 <= i < array_length (proverbs st) /\
    nth_error (proverbs st) (Z.to_nat i) = Some c /\
    displayRandomProverb random st = mkResult (selected c st) [] Normal.
Proof.
  intros Hl Hlen Hr.
  destruct (randomIndex_in_bounds _ _ Hl Hlen Hr) as (i & Hi & Hb).
  destruct (array_get_in_bounds _ _ Hb) as (c & Hg & Hn & _).
  exists i, c. repeat split; try assumption; try lia.
  unfold displayRandomProverb.
  destruct (Z.eqb_spec (array_length (proverbs st)) 0); [lia | ].
  rewrite Hi. cbn [set_currentProverb proverbs]. rewrite Hg. reflexivity.
Qed.

Lemma displayRandomProverb_in_bounds_witness :
  proverbs sampleState <> [] /\
  array_length (proverbs sampleState) < 2 ^ 32 /\
  unitInterval b64_below_one = true /\
  exists i c,
    randomIndex (proverbs sampleState) b64_below_one = Some i /\
    0 <= i < array_length (proverbs sampleState) /\
    nth_error (proverbs sampleState) (Z.to_nat i) = Some c /\
    displayRandomProverb b64_below_one sampleState = mkResult (selected c sampleState) [] Normal.
Proof.
  split; [discriminate | ]. split; [reflexivity | ]. split; [reflexivity | ].
  apply (displayRandomProverb_in_bounds b64_below_one sampleState);
    [discriminate | reflexivity | reflexivity].
Defined.

(** Some draws, computed: the largest Number below 1 gives the last index,
    the smallest Number above 0 and zero give the first, one half gives the
    middle of three. *)
Lemma randomIndex_examples :
  randomIndex sampleProverbs b64_below_one = Some 2 /\
  randomIndex sampleProverbs b64_tiny = Some 0 /\
  randomIndex sampleProverbs b64_zero = Some 0 /\
  randomIndex sampleProverbs (S754_finite false 4503599627370496 (-53)) = Some 1.
Proof. repeat split; vm_compute; reflexivity. Qed.

(* ================================================================== *)
(** ** Copy and share                                                  *)
(* ================================================================== *)

Lemma append_assoc (a b c : string) : ((a ++ b) ++ c = a ++ (b ++ c))%string.
Proof. induction a as [ | x a IH]; cbn [append]; [reflexivity | now rewrite IH]. Qed.

Lemma append_empty_r (a : string) : (a ++ "" = a)%string.
Proof. induction a as [ | x a IH]; cbn [append]; [reflexivity | now rewrite IH]. Qed.

Lemma render_copyTemplate c :
  render c copyTemplate =
  (proverb c ++ nl ++ nl ++ "Translation: " ++ translation c ++ nl ++ "Meaning: " ++ meaning c)%string.
Proof.
  unfold render, copyTemplate. cbn [map segment field concat].
  cbn [append nl]. reflexivity.
Qed.

Lemma render_shareTemplate c :
  render c shareTemplate =
  ("Pashto Proverb:" ++ nl ++ proverb c ++ nl ++ nl ++ "Translation: " ++ translation c)%string.
Proof.
  unfold render, shareTemplate. cbn [map segment field concat].
  cbn [append nl]. reflexivity.
Qed.

(** C6: with the record c selected, the copy operation gives the clipboard
    exactly this text: the proverb, an empty line, the line "Translation: "
    followed by the translation, and the line "Meaning: " followed by the
    meaning, the lines joined by line feeds in that order; and it gives the
    clipboard nothing else.  (Where the host has no clipboard there is
    nothing to give the text to: copyProverb_without_clipboard.) *)
Theorem copyProverb_text (st : State) (c : ProverbRecord) :
  currentProverb st = Some c ->
  effects (copyProverb true st) =
  [ClipboardWriteText
     (String.concat nl [ proverb c;
                         EmptyString;
                         ("Translation: " ++ translation c)%string;
                         ("Meaning: " ++ meaning c)%string ])].
Proof.
  intros E. unfold copyProverb. rewrite E. cbn [effects].
  rewrite render_copyTemplate. cbn [concat].
  cbn [append nl]. reflexivity.
Qed.

Lemma copyProverb_text_witness :
  currentProverb (selected (mkProverb "p0" "A" "M") sampleState) = Some (mkProverb "p0" "A" "M") /\
  effects (copyProverb true (selected (mkProverb "p0" "A" "M") sampleState)) =
  [ClipboardWriteText
     (String.concat nl [ "p0"%string; EmptyString;
                         ("Translation: " ++ "A")%string;
                         ("Meaning: " ++ "M")%string ])].
Proof.
  split; [reflexivity | ].
  apply (copyProverb_text (selected (mkProverb "p0" "A" "M") sampleState)
           (mkProverb "p0" "A" "M")).
  reflexivity.
Defined.

(** The specification's example of a copy, with its Pashto proverb. *)
Lemma copyProverb_example :
  effects (copyProverb true (selected (mkProverb "الف" "A" "M") sampleState)) =
  [ClipboardWriteText ("الف" ++ nl ++ nl ++ "Translation: A" ++ nl ++ "Meaning: M")%string].
Proof. reflexivity. Qed.

(** Where [navigator.clipboard] is undefined, a click on "copy" with a
    record selected throws a TypeError that nothing catches: the listener
    ends there, with no text written and the state as it was. *)
Lemma copyProverb_without_clipboard (st : State) (c : ProverbRecord) :
  currentProverb st = Some c ->
  copyProverb false st = mkResult st [] (Throw TypeError) /\
  step (CopyClick false) st = Some (st, [UncaughtException TypeError]).
Proof.
  intros E. unfold step, copyProverb. rewrite E. split; reflexivity.
Qed.

(** C9: with the record c selected and [navigator.share] present, the share
    operation passes the host one text: the header "Pashto Proverb:", a line
    feed, the proverb, an empty line, and "Translation: " followed by the
    translation.  The header, the proverb and the prefixed translation occur
    in it; the meaning is no part of the template and the text is the same
    whatever the meaning is, while the copy template ends with the meaning. *)
Theorem shareProverb_text (st : State) (c : ProverbRecord) :
  currentProverb st = Some c ->
  effects (shareProverb true st) =
    [NavigatorShare "Pashto Proverb of the Day" (render c shareTemplate)] /\
  render c shareTemplate =
    ("Pashto Proverb:" ++ nl ++ proverb c ++ nl ++ nl ++
     "Translation: " ++ translation c)%string /\
  occurs_in "Pashto Proverb:" (render c shareTemplate) /\
  occurs_in (proverb c) (render c shareTemplate) /\
  occurs_in ("Translation: " ++ translation c) (render c shareTemplate) /\
  ~ In (Sub FMeaning) shareTemplate /\
  (forall m' : string,
     render (mkProverb (proverb c) (translation c) m') shareTemplate =
     render c shareTemplate) /\
  In (Sub FMeaning) copyTemplate.
Proof.
  intros E. rewrite render_shareTemplate.
  split; [ | split; [reflexivity | ] ].
  - unfold shareProverb. rewrite E. cbn [effects]. now rewrite render_shareTemplate.
  - split; [ | split; [ | split; [ | split; [ | split ] ] ] ].
    + exists EmptyString, (nl ++ proverb c ++ nl ++ nl ++ "Translation: " ++ translation c)%string.
      reflexivity.
    + exists ("Pashto Proverb:" ++ nl)%string, (nl ++ nl ++ "Translation: " ++ translation c)%string.
      reflexivity.
    + exists ("Pashto Proverb:" ++ nl ++ proverb c ++ nl ++ nl)%string, EmptyString.
      rewrite append_empty_r, !append_assoc. reflexivity.
    + unfold shareTemplate. cbn [In]. intros [H | [H | [H | [H | []]]]]; discriminate.
    + intros m'. rewrite render_shareTemplate. reflexivity.
    + unfold copyTemplate. cbn [In]. tauto.
Qed.

Lemma shareProverb_text_witness :
  currentProverb (selected (mkProverb "p0" "A" "M") sampleState) = Some (mkProverb "p0" "A" "M") /\
  effects (shareProverb true (selected (mkProverb "p0" "A" "M") sampleState)) =
    [NavigatorShare "Pashto Proverb of the Day"
       (render (mkProverb "p0" "A" "M") shareTemplate)] /\
  render (mkProverb "p0" "A" "M") shareTemplate =
    ("Pashto Proverb:" ++ nl ++ "p0" ++ nl ++ nl ++ "Translation: " ++ "A")%string.
Proof.
  split; [reflexivity | ].
  pose proof (shareProverb_text (selected (mkProverb "p0" "A" "M") sampleState)
                (mkProverb "p0" "A" "M") eq_refl) as (H1 & H2 & _).
  split; [exact H1 | exact H2].
Defined.

(** *** Failures of the host's asynchronous calls *)

(** A rejection of [navigator.share] is caught and written to the console;
    no variable of the script and nothing on the page changes. *)
Lemma share_rejection_reported (st : State) (reason : string) (n : nat) :
  pendingShares st = S n ->
  step (ShareSettled (Rejected reason)) st =
  Some (set_pendingShares n st, [ConsoleError [] (HostError reason)]).
Proof. intros E. unfold step. rewrite E. reflexivity. Qed.

(** A rejection of [clipboard.writeText] meets no handler: the script
    writes nothing to the console and nothing to the page. *)
Lemma writeText_rejection_unhandled (st : State) (reason : string) (n : nat) :
  pendingWrites st = S n ->
  step (WriteTextSettled (Rejected reason)) st =
  Some (set_pendingWrites n st, [UnhandledRejection (HostError reason)]).
Proof. intros E. unfold step. rewrite E. reflexivity. Qed.

(** C7, at a session with a record selected: a click on "copy" whose
    [writeText] promise is rejected ends in an unhandled rejection, with no
    console diagnostic and the page as before; a click on "share" whose
    [share] promise is rejected ends in a call of [console.error]. *)
Theorem copy_failure_unhandled_share_failure_reported :
  run [CopyClick true; WriteTextSettled (Rejected "NotAllowedError")]
      (selected (mkProverb "p0" "A" "M") sampleState) =
  Some (selected (mkProverb "p0" "A" "M") sampleState,
        [ ClipboardWriteText ("p0" ++ nl ++ nl ++ "Translation: A" ++ nl ++ "Meaning: M")%string;
          UnhandledRejection (HostError "NotAllowedError") ]) /\
  run [ShareClick true; ShareSettled (Rejected "AbortError")]
      (selected (mkProverb "p0" "A" "M") sampleState) =
  Some (selected (mkProverb "p0" "A" "M") sampleState,
        [ NavigatorShare "Pashto Proverb of the Day"
            ("Pashto Proverb:" ++ nl ++ "p0" ++ nl ++ nl ++ "Translation: A")%string;
          ConsoleError [] (HostError "AbortError") ]).
Proof. split; reflexivity. Qed.

(** After either failure the session goes on: any event that could occur
    before can occur after, the pending promise apart. *)
Lemma failure_keeps_session (st : State) (reason : string) (n : nat) :
  (pendingWrites st = S n ->
   exists st', step (WriteTextSettled (Rejected reason)) st = Some (st', [UnhandledRejection (HostError reason)]) /\
               proverbs st' = proverbs st /\ currentProverb st' = currentProverb st /\
               page st' = page st) /\
  (pendingShares st = S n ->
   exists st', step (ShareSettled (Rejected reason)) st = Some (st', [ConsoleError [] (HostError reason)]) /\
               proverbs st' = proverbs st /\ currentProverb st' = currentProverb st /\
               page st' = page st).
Proof.
  split; intros E.
  - eexists. split; [apply writeText_rejection_unhandled; exact E | repeat split].
  - eexists. split; [apply share_rejection_reported; exact E | repeat split].
Qed.

(* ================================================================== *)
(** ** The current selection over a session                            *)
(* ================================================================== *)

Lemma selection_in_empty st :
  selection_in_collection st -> proverbs st = [] -> currentProverb st = None.
Proof.
  intros [N | (c & _ & I)] E; [exact N | ]. rewrite E in I. destruct I.
Qed.

Lemma showCurrent_selection st :
  selection_in_collection st -> selection_in_collection (after (showCurrent st)).
Proof.
  unfold showCurrent. destruct (currentProverb st) as [c | ] eqn:E; intros H; exact H.
Qed.

Lemma showCurrent_keeps st :
  proverbs (after (showCurrent st)) = proverbs st /\
  fetchPending (after (showCurrent st)) = fetchPending st.
Proof. unfold showCurrent. destruct (currentProverb st); split; reflexivity. Qed.

Lemma array_get_selection l i st :
  proverbs st = l ->
  selection_in_collection (set_currentProverb (array_get l i) st).
Proof.
  intros E. unfold selection_in_collection. cbn [set_currentProverb currentProverb proverbs].
  destruct (array_get l i) as [c | ] eqn:G; [right | left; reflexivity].
  exists c. split; [reflexivity | ]. rewrite E. eapply array_get_member; eassumption.
Qed.

Lemma displayDailyProverb_invariant h st :
  selection_in_collection st ->
  selection_in_collection (after (displayDailyProverb h st)) /\
  proverbs (after (displayDailyProverb h st)) = proverbs st /\
  fetchPending (after (displayDailyProverb h st)) = fetchPending st.
Proof.
  intros H. unfold displayDailyProverb.
  destruct (array_length (proverbs st) =? 0); [repeat split; exact H | ].
  split; [apply showCurrent_selection, array_get_selection; reflexivity | ].
  exact (showCurrent_keeps (set_currentProverb _ st)).
Qed.

Lemma displayRandomProverb_invariant random st :
  selection_in_collection st ->
  selection_in_collection (after (displayRandomProverb random st)) /\
  proverbs (after (displayRandomProverb random st)) = proverbs st /\
  fetchPending (after (displayRandomProverb random st)) = fetchPending st.
Proof.
  intros H. unfold displayRandomProverb.
  destruct (array_length (proverbs st) =? 0); [repeat split; exact H | ].
  split; [apply showCurrent_selection, array_get_selection; reflexivity | ].
  exact (showCurrent_keeps (set_currentProverb _ st)).
Qed.

Lemma listener_after r : fst (listener r) = after r.
Proof. unfold listener. destruct (completion r); reflexivity. Qed.

Lemma listener_eq r st' fx : Some (listener r) = Some (st', fx) -> st' = after r.
Proof. intros [= H]. rewrite <- (listener_after r), H. reflexivity. Qed.

Lemma step_copyOrShare ev st st' fx :
  copyOrShare ev = true -> step ev st = Some (st', fx) ->
  currentProverb st' = currentProverb st /\ proverbs st' = proverbs st /\
  fetchPending st' = fetchPending st.
Proof.
  destruct ev; cbn [copyOrShare]; try discriminate; intros _; unfold step.
  - unfold copyProverb. destruct (currentProverb st) eqn:E; [destruct hasClipboard | ];
      intros [= <- _]; repeat split; exact E.
  - destruct (pendingWrites st); [discriminate | ].
    destruct s; intros [= <- _]; repeat split.
  - destruct (timers st); [discriminate | ]. intros [= <- _]; repeat split.
  - unfold shareProverb. destruct (currentProverb st) eqn:E; [destruct canShare | ];
      intros [= <- _]; repeat split; exact E.
  - destruct (pendingShares st); [discriminate | ].
    destruct s; intros [= <- _]; repeat split.
Qed.

Lemma step_invariant ev st st' fx :
  session_invariant st -> step ev st = Some (st', fx) -> session_invariant st'.
Proof.
  intros [Sel Pend] St.
  destruct (copyOrShare ev) eqn:K.
  - destruct (step_copyOrShare _ _ _ _ K St) as (C & P & F).
    split.
    + unfold selection_in_collection. rewrite C, P. exact Sel.
    + rewrite F, P. exact Pend.
  - destruct ev; cbn [copyOrShare] in K; try discriminate; unfold step in St.
    + destruct (fetchPending st) eqn:FP; [ | discriminate].
      apply listener_eq in St. subst st'.
      unfold fetchFulfilled.
      set (st0 := set_proverbs data (set_fetchPending false st)).
      assert (S0 : selection_in_collection st0).
      { left. apply (selection_in_empty st Sel (Pend eq_refl)). }
      destruct (displayDailyProverb_invariant h st0 S0) as (I1 & I2 & I3).
      destruct (completion (displayDailyProverb h st0)).
      * split; [exact I1 | ]. rewrite I3. discriminate.
      * cbn [after fetchCatch]. split.
        -- exact I1.
        -- cbn [fetchPending set_page]. rewrite I3. discriminate.
    + destruct (fetchPending st) eqn:FP; [ | discriminate].
      apply listener_eq in St. subst st'. split; [exact Sel | discriminate].
    + destruct (unitInterval random); [ | discriminate].
      apply listener_eq in St. subst st'.
      destruct (displayRandomProverb_invariant random st Sel) as (I1 & I2 & I3).
      split; [exact I1 | ]. rewrite I2, I3. exact Pend.
Qed.

Lemma reachable_invariant pg st : reachable pg st -> session_invariant st.
Proof.
  induction 1 as [ | st ev st' fx R IH St].
  - split; [left; reflexivity | reflexivity].
  - eapply step_invariant; eassumption.
Qed.

(** C10: in every state a session can reach, the current selection is
    nothing or a record of the loaded collection; no event of the copy and
    share actions changes the selection or the collection; and with nothing
    selected, copyProverb and shareProverb return at once, having done
    nothing. *)
Theorem selection_invariant (pg : Page) (st : State) :
  reachable pg st ->
  (currentProverb st = None \/
   exists c, currentProverb st = Some c /\ In c (proverbs st)) /\
  (forall ev st' fx,
     copyOrShare ev = true -> step ev st = Some (st', fx) ->
     currentProverb st' = currentProverb st /\ proverbs st' = proverbs st) /\
  (currentProverb st = None ->
   (forall hasClipboard, copyProverb hasClipboard st = mkResult st [] Normal) /\
   forall canShare, shareProverb canShare st = mkResult st [] Normal).
Proof.
  intros R. split; [ | split].
  - apply (reachable_invariant pg st R).
  - intros ev st' fx K St.
    destruct (step_copyOrShare _ _ _ _ K St) as (C & P & _). split; assumption.
  - intros N. unfold copyProverb, shareProverb. rewrite N. split; reflexivity.
Qed.

Lemma selection_invariant_witness :
  reachable samplePage (selected (mkProverb "p1" "t1" "m1") sampleState) /\
  (currentProverb (selected (mkProverb "p1" "t1" "m1") sampleState) = None \/
   exists c, currentProverb (selected (mkProverb "p1" "t1" "m1") sampleState) = Some c /\
             In c (proverbs (selected (mkProverb "p1" "t1" "m1") sampleState))) /\
  (forall ev st' fx,
     copyOrShare ev = true ->
     step ev (selected (mkProverb "p1" "t1" "m1") sampleState) = Some (st', fx) ->
     currentProverb st' = currentProverb (selected (mkProverb "p1" "t1" "m1") sampleState) /\
     proverbs st' = proverbs (selected (mkProverb "p1" "t1" "m1") sampleState)) /\
  (currentProverb (selected (mkProverb "p1" "t1" "m1") sampleState) = None ->
   (forall hasClipboard,
      copyProverb hasClipboard (selected (mkProverb "p1" "t1" "m1") sampleState) =
      mkResult (selected (mkProverb "p1" "t1" "m1") sampleState) [] Normal) /\
   forall canShare,
     shareProverb canShare (selected (mkProverb "p1" "t1" "m1") sampleState) =
     mkResult (selected (mkProverb "p1" "t1" "m1") sampleState) [] Normal).
Proof.
  assert (R : reachable samplePage (selected (mkProverb "p1" "t1" "m1") sampleState)).
  { exact (reach_step samplePage (initial samplePage)
             (FetchFulfilled sampleProverbs (mkHost 1704412800000 0))
             (selected (mkProverb "p1" "t1" "m1") sampleState) []
             (reach_initial samplePage) eq_refl). }
  split; [exact R | ].
  exact (selection_invariant samplePage (selected (mkProverb "p1" "t1" "m1") sampleState) R).
Defined.

(* ================================================================== *)
(** ** More on the daily index                                            *)
(* ================================================================== *)

(** X1: whenever displayDailyProverb computes an index, the index is an
    integer from 0 to 365 and below the length, and the array has a record
    there: the daily read is never out of bounds, and a record at position
    366 or beyond is never the proverb of the day. *)
Theorem dailyIndex_within_array_and_year (l : list ProverbRecord) (t i : Z) :
  dailyIndex l t = Some i ->
  0 <= i <= 365 /\ i < array_length l /\
  exists c, array_get l (Some i) = Some c /\ In c l.
Proof.
  unfold dailyIndex. destruct (getUTCOrdinalDay t) as [k | ] eqn:Hk; [ | discriminate].
  cbn [num_rem]. destruct (Z.eqb_spec (array_length l) 0) as [E | N]; [discriminate | ].
  intros [= <-].
  pose proof (getUTCOrdinalDay_range t k Hk) as R.
  assert (P : 0 < array_length l) by (unfold array_length in *; lia).
  rewrite Z.rem_mod_nonneg by lia.
  pose proof (Z.mod_pos_bound k (array_length l) P) as B.
  pose proof (Z.mod_le k (array_length l) ltac:(lia) P) as L.
  split; [lia | ]. split; [lia | ].
  destruct (array_get_in_bounds l (k mod array_length l) B) as (c & G & _ & I).
  exists c. split; assumption.
Qed.

Lemma dailyIndex_within_array_and_year_witness :
  dailyIndex sampleProverbs 1704412800000 = Some 1 /\
  (0 <= 1 <= 365 /\ 1 < array_length sampleProverbs /\
   exists c, array_get sampleProverbs (Some 1) = Some c /\ In c sampleProverbs).
Proof.
  split; [reflexivity | ].
  exact (dailyIndex_within_array_and_year sampleProverbs 1704412800000 1 eq_refl).
Defined.

(** X2: two dates for which getUTCOrdinalDay returns k1 and k2, with
    k1 < k2 < k1 + length, get different indices.  (The ordinal day starts
    again at 0 with each year, so this is about days counted within a year:
    December 31 and the January 1 after it can share an index.) *)
Theorem dailyIndex_distinct_within_window (l : list ProverbRecord) (d1 d2 k1 k2 : Z) :
  getUTCOrdinalDay d1 = Some k1 ->
  getUTCOrdinalDay d2 = Some k2 ->
  k1 < k2 < k1 + array_length l ->
  exists i1 i2, dailyIndex l d1 = Some i1 /\ dailyIndex l d2 = Some i2 /\ i1 <> i2.
Proof.
  intros H1 H2 W.
  assert (Hl : l <> []).
  { intros ->. unfold array_length in W. cbn in W. lia. }
  destruct (dailyIndex_mod l d1 k1 Hl H1) as [E1 _].
  destruct (dailyIndex_mod l d2 k2 Hl H2) as [E2 _].
  exists (k1 mod array_length l), (k2 mod array_length l).
  split; [exact E1 | ]. split; [exact E2 | ].
  intros E.
  assert (D : (k2 - k1) mod array_length l = 0).
  { rewrite Zminus_mod, E, Z.sub_diag. apply Z.mod_0_l. lia. }
  rewrite Z.mod_small in D by lia. lia.
Qed.

Lemma dailyIndex_distinct_within_window_witness :
  getUTCOrdinalDay 1704067200000 = Some 0 /\
  getUTCOrdinalDay 1704240000000 = Some 2 /\
  0 < 2 < 0 + array_length sampleProverbs /\
  exists i1 i2, dailyIndex sampleProverbs 1704067200000 = Some i1 /\
                dailyIndex sampleProverbs 1704240000000 = Some i2 /\ i1 <> i2.
Proof.
  split; [reflexivity | ]. split; [reflexivity | ]. split; [cbn; lia | ].
  apply (dailyIndex_distinct_within_window sampleProverbs 1704067200000 1704240000000 0 2);
    [reflexivity | reflexivity | cbn; lia].
Defined.

(* ================================================================== *)
(** ** getUTCOrdinalDay on every date                                     *)
(* ================================================================== *)

(** X3: what getUTCOrdinalDay returns, for every date a Date can hold: NaN
    when January 1 of the date's UTC year lies before the first time value;
    one less than the day of the year in UTC year 0 from March 1 on; the
    zero-based day of the year everywhere else. *)
Theorem getUTCOrdinalDay_characterised (t : Z) :
  validTime t ->
  getUTCOrdinalDay t =
  if yearStart t <? - maxTimeValue then None
  else if (getUTCFullYear t =? 0) && (60 <=? ordinalDaySpec t)
       then Some (ordinalDaySpec t - 1)
       else Some (ordinalDaySpec t).
Proof.
  intros V. rewrite ordinalDaySpec_DayWithinYear. unfold yearStart, getUTCFullYear.
  destruct (Z.ltb_spec (TimeFromYear (YearFromTime t)) (- maxTimeValue)) as [S | S].
  - apply getUTCOrdinalDay_NaN. exact S.
  - destruct (Z.eqb_spec (YearFromTime t) 0) as [E | N];
      destruct (Z.leb_spec 60 (DayWithinYear t)) as [G | L]; cbn [andb].
    + apply getUTCOrdinalDay_year_zero; assumption.
    + apply getUTCOrdinalDay_calendar; auto.
    + apply getUTCOrdinalDay_calendar; auto. intros; contradiction.
    + apply getUTCOrdinalDay_calendar; auto.
Qed.

Lemma getUTCOrdinalDay_characterised_witness :
  validTime 1709251200000 /\
  getUTCOrdinalDay 1709251200000 =
  if yearStart 1709251200000 <? - maxTimeValue then None
  else if (getUTCFullYear 1709251200000 =? 0) && (60 <=? ordinalDaySpec 1709251200000)
       then Some (ordinalDaySpec 1709251200000 - 1)
       else Some (ordinalDaySpec 1709251200000).
Proof.
  assert (V : validTime 1709251200000) by (unfold validTime, maxTimeValue; lia).
  split; [exact V | ].
  exact (getUTCOrdinalDay_characterised 1709251200000 V).
Defined.

(** X4: [today], the second call of [Date.UTC] in getUTCOrdinalDay, is the
    UTC midnight of the date: the three UTC fields of a date, given back to
    [Date.UTC], lose the time of day and nothing else.  Years 0 to 99 are
    excepted, which [Date.UTC] moves to 1900 to 1999. *)
Theorem Date_UTC_of_UTC_fields (t : Z) :
  validTime t ->
  ~ 0 <= getUTCFullYear t <= 99 ->
  Date_UTC (getUTCFullYear t) (getUTCMonth t) (getUTCDate t) = Some (utcMidnight t).
Proof.
  unfold getUTCFullYear, getUTCMonth, getUTCDate. intros V Y.
  unfold Date_UTC.
  destruct (MakeFullYear_cases (YearFromTime t)) as [[Hy _] | [_ ->]]; [contradiction | ].
  rewrite MakeDay_of_fields. unfold MakeDate, MakeTime.
  change (0 * msPerHour + 0 * msPerMinute + 0 * msPerSecond + 0) with 0.
  rewrite Z.add_0_r, Z.mul_comm, utcMidnight_Day.
  apply TimeClip_in_range, validTime_midnight, V.
Qed.

Lemma Date_UTC_of_UTC_fields_witness :
  validTime (1704412800000 + 86399999) /\
  ~ 0 <= getUTCFullYear (1704412800000 + 86399999) <= 99 /\
  Date_UTC (getUTCFullYear (1704412800000 + 86399999))
           (getUTCMonth (1704412800000 + 86399999))
           (getUTCDate (1704412800000 + 86399999)) =
  Some (utcMidnight (1704412800000 + 86399999)).
Proof.
  assert (V : validTime (1704412800000 + 86399999)) by (unfold validTime, maxTimeValue; lia).
  assert (Y : ~ 0 <= getUTCFullYear (1704412800000 + 86399999) <= 99).
  { change (getUTCFullYear (1704412800000 + 86399999)) with 2024. lia. }
  split; [exact V | ]. split; [exact Y | ].
  exact (Date_UTC_of_UTC_fields _ V Y).
Defined.

(** X7: on January 1 (UTC) of any year that begins within the range of time
    values, displayDailyProverb selects the first record of the collection,
    whatever was selected on December 31: the index starts again at 0 with
    the year. *)
Theorem displayDailyProverb_january_first (h : Host) (st : State) :
  proverbs st <> [] ->
  validTime (currentTime h) ->
  - maxTimeValue <= yearStart (currentTime h) ->
  getUTCMonth (currentTime h) = 0 ->
  getUTCDate (currentTime h) = 1 ->
  exists c,
    nth_error (proverbs st) 0 = Some c /\
    displayDailyProverb h st = mkResult (selected c st) [] Normal.
Proof.
  intros Hl V S M D.
  pose proof (getUTCOrdinalDay_unfold (currentTime h)) as U. cbv zeta in U.
  destruct (getUTCOrdinalDay_total _ V S) as (k & Hk).
  assert (K : k = 0).
  { rewrite Hk in U.
    destruct (TimeClip _); [ | discriminate]. destruct (TimeClip _); [ | discriminate].
    injection U as ->. unfold ordinalInYear.
    unfold getUTCMonth, getUTCDate in M, D. rewrite M, D. reflexivity. }
  subst k.
  destruct (dailyIndex_mod _ _ _ Hl Hk) as [Hi Hr].
  rewrite Z.mod_0_l in Hi, Hr by (pose proof (array_length_pos _ Hl); lia).
  exact (displayDailyProverb_at_index h st 0 Hi Hr).
Qed.

Lemma displayDailyProverb_january_first_witness :
  proverbs sampleState <> [] /\
  validTime 1704067200000 /\
  - maxTimeValue <= yearStart 1704067200000 /\
  getUTCMonth 1704067200000 = 0 /\
  getUTCDate 1704067200000 = 1 /\
  exists c,
    nth_error (proverbs sampleState) 0 = Some c /\
    displayDailyProverb (mkHost 1704067200000 0) sampleState =
    mkResult (selected c sampleState) [] Normal.
Proof.
  assert (V : validTime 1704067200000) by (unfold validTime, maxTimeValue; lia).
  assert (S : - maxTimeValue <= yearStart 1704067200000).
  { change (yearStart 1704067200000) with 1704067200000. unfold maxTimeValue. lia. }
  split; [discriminate | ]. split; [exact V | ]. split; [exact S | ].
  split; [reflexivity | ]. split; [reflexivity | ].
  apply (displayDailyProverb_january_first (mkHost 1704067200000 0) sampleState);
    [discriminate | exact V | exact S | reflexivity | reflexivity].
Defined.

(* ================================================================== *)
(** ** Sessions with nothing loaded                                       *)
(* ================================================================== *)

Lemma quiet_step ev st st' fx :
  quiet st -> (isFetch ev = false \/ fetchPending st = false) ->
  step ev st = Some (st', fx) -> st' = st /\ fx = [].
Proof.
  destruct st as [l c pg fp pw ps tm]. unfold quiet. cbn.
  intros (-> & -> & -> & -> & ->) F.
  destruct ev; cbn; cbn in F.
  - destruct F as [F | ->]; [discriminate | discriminate].
  - destruct F as [F | ->]; [discriminate | discriminate].
  - destruct (unitInterval random); [ | discriminate]. intros [= <- <-]. split; reflexivity.
  - intros [= <- <-]. split; reflexivity.
  - discriminate.
  - discriminate.
  - intros [= <- <-]. split; reflexivity.
  - discriminate.
Qed.

Lemma quiet_run evs : forall st st' fx,
  quiet st ->
  (forallb (fun ev => negb (isFetch ev)) evs = true \/ fetchPending st = false) ->
  run evs st = Some (st', fx) -> st' = st /\ fx = [].
Proof.
  induction evs as [ | ev evs IH]; intros st st' fx Q F; cbn [run].
  - intros [= <- <-]. split; reflexivity.
  - destruct (step ev st) as [[st1 fx1] | ] eqn:S1; [ | discriminate].
    assert (F1 : isFetch ev = false \/ fetchPending st = false).
    { destruct F as [F | F]; [left | right; exact F].
      cbn [forallb] in F. apply andb_prop in F as [F _].
      now apply negb_true_iff in F. }
    destruct (quiet_step _ _ _ _ Q F1 S1) as [-> ->].
    destruct (run evs st) as [[st2 fx2] | ] eqn:R2; [ | discriminate].
    assert (F2 : forallb (fun ev => negb (isFetch ev)) evs = true \/ fetchPending st = false).
    { destruct F as [F | F]; [left | right; exact F].
      cbn [forallb] in F. now apply andb_prop in F as [_ F]. }
    destruct (IH _ _ _ Q F2 R2) as [-> ->].
    intros [= <- <-]. split; reflexivity.
Qed.

(** X12: until the fetch settles, clicks do nothing: after any run of events
    without the fetch's completion, the state is the initial one, and the
    script has written to no clipboard, opened no share sheet and no alert,
    and logged nothing. *)
Theorem clicks_before_load_do_nothing (pg : Page) (evs : list Event) (st : State) (fx : list Effect) :
  forallb (fun ev => negb (isFetch ev)) evs = true ->
  run evs (initial pg) = Some (st, fx) ->
  st = initial pg /\ fx = [].
Proof.
  intros F R. apply (quiet_run evs (initial pg)); [ | left; exact F | exact R].
  repeat split.
Qed.

Lemma clicks_before_load_do_nothing_witness :
  forallb (fun ev => negb (isFetch ev)) [CopyClick true; ShareClick true; NewProverbClick b64_tiny] = true /\
  run [CopyClick true; ShareClick true; NewProverbClick b64_tiny] (initial samplePage) =
    Some (initial samplePage, []) /\
  (initial samplePage = initial samplePage /\ @nil Effect = []).
Proof.
  split; [reflexivity | ]. split; [reflexivity | ].
  exact (clicks_before_load_do_nothing samplePage
           [CopyClick true; ShareClick true; NewProverbClick b64_tiny]
           (initial samplePage) [] eq_refl eq_refl).
Defined.

(** X11: a rejected fetch logs the error, puts the fixed failure text in the
    proverb element, and leaves the collection empty; from then on no event
    changes anything or reaches the host: the failure text stays, and the
    "new proverb", "copy" and "share" buttons are dead. *)
Theorem failed_load_is_final (pg : Page) (reason : string) :
  step (FetchRejected reason) (initial pg) =
    Some (failedLoad pg,
          [ConsoleError ["Error fetching proverbs:"%string] (HostError reason)]) /\
  forall evs st fx,
    run evs (failedLoad pg) = Some (st, fx) -> st = failedLoad pg /\ fx = [].
Proof.
  split; [reflexivity | ].
  intros evs st fx R.
  apply (quiet_run evs (failedLoad pg)); [repeat split | right; reflexivity | exact R].
Qed.

(** X10: a fetch that delivers an empty array is taken without any message:
    the page stays as the document had it, nothing is logged, and from then
    on no event changes anything or reaches the host. *)
Theorem empty_load_is_final (pg : Page) (h : Host) :
  step (FetchFulfilled [] h) (initial pg) = Some (emptyLoad pg, []) /\
  forall evs st fx,
    run evs (emptyLoad pg) = Some (st, fx) -> st = emptyLoad pg /\ fx = [].
Proof.
  split; [reflexivity | ].
  intros evs st fx R.
  apply (quiet_run evs (emptyLoad pg)); [repeat split | right; reflexivity | exact R].
Qed.

(* ================================================================== *)
(** ** The fetch completing                                               *)
(* ================================================================== *)

(** X8: when the fetch delivers a non-empty array and the ordinal day of
    the current date is a Number k, the one step stores the array, selects
    its record at k mod length, shows it, and does nothing else. *)
Theorem fetch_shows_proverb_of_the_day
    (data : list ProverbRecord) (h : Host) (st : State) (k : Z) :
  fetchPending st = true ->
  data <> [] ->
  getUTCOrdinalDay (currentTime h) = Some k ->
  exists c,
    nth_error data (Z.to_nat (k mod array_length data)) = Some c /\
    step (FetchFulfilled data h) st =
    Some (selected c (set_proverbs data (set_fetchPending false st)), []).
Proof.
  intros FP Hd Hk. unfold step. rewrite FP.
  set (st0 := set_proverbs data (set_fetchPending false st)).
  assert (Hl : proverbs st0 <> []) by exact Hd.
  destruct (dailyIndex_mod _ _ _ Hl Hk) as [Hi Hr].
  destruct (displayDailyProverb_at_index h st0 _ Hi Hr) as (c & Hn & Hdisp).
  exists c. split; [exact Hn | ].
  unfold fetchFulfilled. fold st0. rewrite Hdisp. reflexivity.
Qed.

Lemma fetch_shows_proverb_of_the_day_witness :
  fetchPending (initial samplePage) = true /\
  sampleProverbs <> [] /\
  getUTCOrdinalDay 1704412800000 = Some 4 /\
  exists c,
    nth_error sampleProverbs (Z.to_nat (4 mod array_length sampleProverbs)) = Some c /\
    step (FetchFulfilled sampleProverbs (mkHost 1704412800000 0)) (initial samplePage) =
    Some (selected c (set_proverbs sampleProverbs (set_fetchPending false (initial samplePage))), []).
Proof.
  split; [reflexivity | ]. split; [discriminate | ]. split; [reflexivity | ].
  apply (fetch_shows_proverb_of_the_day sampleProverbs (mkHost 1704412800000 0)
           (initial samplePage) 4); [reflexivity | discriminate | reflexivity].
Defined.

(** X9: when the fetch delivers a non-empty array and the ordinal day of
    the current date is NaN, the TypeError of displayDailyProverb is caught
    by the [catch] of the fetch chain: the array is stored, nothing is
    selected, the failure text of a failed load is shown, and the TypeError
    is logged; no exception leaves the callback. *)
Theorem fetch_display_error_is_caught (data : list ProverbRecord) (h : Host) (st : State) :
  fetchPending st = true ->
  data <> [] ->
  getUTCOrdinalDay (currentTime h) = None ->
  step (FetchFulfilled data h) st =
  Some (set_page (set_proverbTextEl loadFailedText (page st))
          (set_currentProverb None (set_proverbs data (set_fetchPending false st))),
        [ConsoleError ["Error fetching proverbs:"%string] TypeError]).
Proof.
  intros FP Hd Hk. unfold step. rewrite FP.
  unfold fetchFulfilled, displayDailyProverb, dailyIndex.
  cbn [proverbs set_proverbs]. rewrite Hk.
  destruct (Z.eqb_spec (array_length data) 0) as [E | N].
  - pose proof (array_length_pos data Hd). lia.
  - reflexivity.
Qed.

Lemma fetch_display_error_is_caught_witness :
  fetchPending (initial samplePage) = true /\
  sampleProverbs <> [] /\
  getUTCOrdinalDay (- maxTimeValue) = None /\
  step (FetchFulfilled sampleProverbs (mkHost (- maxTimeValue) 0)) (initial samplePage) =
  Some (set_page (set_proverbTextEl loadFailedText (page (initial samplePage)))
          (set_currentProverb None
             (set_proverbs sampleProverbs (set_fetchPending false (initial samplePage)))),
        [ConsoleError ["Error fetching proverbs:"%string] TypeError]).
Proof.
  split; [reflexivity | ]. split; [discriminate | ]. split; [reflexivity | ].
  apply (fetch_display_error_is_caught sampleProverbs (mkHost (- maxTimeValue) 0)
           (initial samplePage)); [reflexivity | discriminate | reflexivity].
Defined.

(* ================================================================== *)
(** ** What no event does                                                 *)
(* ================================================================== *)

Lemma displayRandomProverb_completes random st :
  array_length (proverbs st) < 2 ^ 32 -> unitInterval random = true ->
  completion (displayRandomProverb random st) = Normal /\
  effects (displayRandomProverb random st) = [].
Proof.
  intros Hlen Hr. unfold displayRandomProverb.
  destruct (Z.eqb_spec (array_length (proverbs st)) 0) as [E | N]; [split; reflexivity | ].
  assert (Hl : proverbs st <> []).
  { intros E. rewrite E in N. apply N. reflexivity. }
  destruct (randomIndex_in_bounds _ _ Hl Hlen Hr) as (i & Hi & Hb).
  destruct (array_get_in_bounds _ _ Hb) as (c & Hg & _).
  rewrite Hi. unfold showCurrent. cbn [set_currentProverb currentProverb]. rewrite Hg.
  split; reflexivity.
Qed.

Lemma displayDailyProverb_effects h st : effects (displayDailyProverb h st) = [].
Proof.
  unfold displayDailyProverb, showCurrent.
  destruct (_ =? _); [reflexivity | ].
  cbn [set_currentProverb currentProverb].
  destruct (array_get _ _); reflexivity.
Qed.

Lemma fetchFulfilled_completes data h st :
  completion (fetchFulfilled data h st) = Normal /\
  forall e, ~ In (UncaughtException e) (effects (fetchFulfilled data h st)).
Proof.
  unfold fetchFulfilled.
  pose proof (displayDailyProverb_effects h (set_proverbs data st)) as Fx.
  destruct (displayDailyProverb h (set_proverbs data st)) as [a f [ | err]];
    cbn [effects completion after] in *; subst f.
  - split; [reflexivity | ]. intros e [].
  - split; [reflexivity | ]. cbn. intros e [H | []]. discriminate.
Qed.

Lemma listener_handled r st' fx :
  completion r = Normal ->
  (forall e, ~ In (UncaughtException e) (effects r)) ->
  Some (listener r) = Some (st', fx) ->
  forall e, ~ In (UncaughtException e) fx.
Proof.
  intros C N [= H]. unfold listener in H. rewrite C in H.
  injection H as _ <-. exact N.
Qed.

(** The events whose listener or callback cannot throw past the script:
    all but the click on "copy". *)
Lemma step_handled (ev : Event) (st st' : State) (fx : list Effect) :
  array_length (proverbs st) < 2 ^ 32 ->
  (forall hasClipboard, ev <> CopyClick hasClipboard) ->
  step ev st = Some (st', fx) ->
  forall e, ~ In (UncaughtException e) fx.
Proof.
  intros Hlen NC S.
  destruct ev; unfold step in S.
  - destruct (fetchPending st); [ | discriminate].
    destruct (fetchFulfilled_completes data h (set_fetchPending false st)) as [C N].
    exact (listener_handled _ _ _ C N S).
  - destruct (fetchPending st); [ | discriminate].
    revert S. apply listener_handled; [reflexivity | ].
    cbn. intros e [H | []]. discriminate.
  - destruct (unitInterval random) eqn:U; [ | discriminate].
    destruct (displayRandomProverb_completes random st Hlen U) as [C F].
    revert S. apply listener_handled; [exact C | ]. rewrite F. intros e [].
  - exfalso. apply (NC hasClipboard). reflexivity.
  - destruct (pendingWrites st); [discriminate | ].
    revert S. destruct s; apply listener_handled; try reflexivity; cbn.
    + intros e [].
    + intros e [H | []]. discriminate.
  - destruct (timers st); [discriminate | ].
    revert S. apply listener_handled; [reflexivity | ]. intros e [].
  - revert S. unfold shareProverb.
    destruct (currentProverb st); [destruct canShare | ];
      apply listener_handled; try reflexivity; cbn;
      try (intros e [H | []]; discriminate); intros e [].
  - destruct (pendingShares st); [discriminate | ].
    revert S. destruct s; apply listener_handled; try reflexivity; cbn.
    + intros e [].
    + intros e [H | []]. discriminate.
Qed.

(** X13: over a collection of proverb records of a length an array can
    have, one event only ends in an uncaught exception: the click on "copy"
    with a record selected where [navigator.clipboard] is undefined.  It
    throws a TypeError, writes nothing and leaves the state as it was.
    Every other listener and callback returns normally or has its exception
    caught by the fetch chain. *)
Theorem uncaught_exception_only_without_clipboard (st : State) :
  array_length (proverbs st) < 2 ^ 32 ->
  (forall ev st' fx e,
     step ev st = Some (st', fx) -> In (UncaughtException e) fx ->
     ev = CopyClick false /\ currentProverb st <> None /\ e = TypeError /\
     st' = st /\ fx = [UncaughtException TypeError]) /\
  (forall c, currentProverb st = Some c ->
     step (CopyClick false) st = Some (st, [UncaughtException TypeError])).
Proof.
  intros Hlen. split.
  - intros ev st' fx e S I.
    assert (D : (exists hasClipboard, ev = CopyClick hasClipboard) \/
                (forall hasClipboard, ev <> CopyClick hasClipboard)).
    { destruct ev; try (right; intros b; discriminate). left. eexists. reflexivity. }
    destruct D as [[b ->] | NC].
    + unfold step, copyProverb in S.
      destruct (currentProverb st) as [c | ] eqn:E; [destruct b | ];
        injection S as <- <-; cbn in I.
      * destruct I as [I | []]. discriminate.
      * destruct I as [I | []]. injection I as <-.
        repeat split. discriminate.
      * destruct I.
    + exfalso. exact (step_handled ev st st' fx Hlen NC S e I).
  - intros c E. unfold step, copyProverb. rewrite E. reflexivity.
Qed.

Lemma uncaught_exception_only_without_clipboard_witness :
  array_length (proverbs (selected (mkProverb "p0" "t0" "m0") sampleState)) < 2 ^ 32 /\
  (forall ev st' fx e,
     step ev (selected (mkProverb "p0" "t0" "m0") sampleState) = Some (st', fx) ->
     In (UncaughtException e) fx ->
     ev = CopyClick false /\
     currentProverb (selected (mkProverb "p0" "t0" "m0") sampleState) <> None /\
     e = TypeError /\
     st' = selected (mkProverb "p0" "t0" "m0") sampleState /\
     fx = [UncaughtException TypeError]) /\
  (forall c, currentProverb (selected (mkProverb "p0" "t0" "m0") sampleState) = Some c ->
     step (CopyClick false) (selected (mkProverb "p0" "t0" "m0") sampleState) =
     Some (selected (mkProverb "p0" "t0" "m0") sampleState, [UncaughtException TypeError])).
Proof.
  split; [reflexivity | ].
  exact (uncaught_exception_only_without_clipboard
           (selected (mkProverb "p0" "t0" "m0") sampleState) eq_refl).
Defined.

(* ================================================================== *)
(** ** The collection after the load                                      *)
(* ================================================================== *)

(** X14: once the fetch has settled, no event assigns to [proverbs]: the
    collection stays what the fetch made it, and the fetch stays settled. *)
Theorem collection_fixed_after_load (ev : Event) (st st' : State) (fx : list Effect) :
  fetchPending st = false ->
  step ev st = Some (st', fx) ->
  proverbs st' = proverbs st /\ fetchPending st' = false.
Proof.
  intros FP S.
  destruct (copyOrShare ev) eqn:K.
  - destruct (step_copyOrShare _ _ _ _ K S) as (_ & P & F). rewrite F. split; assumption.
  - destruct ev; cbn [copyOrShare] in K; try discriminate; unfold step in S.
    + rewrite FP in S. discriminate.
    + rewrite FP in S. discriminate.
    + destruct (unitInterval random); [ | discriminate].
      apply listener_eq in S. subst st'.
      unfold displayRandomProverb.
      destruct (_ =? _); [split; [reflexivity | exact FP] | ].
      destruct (showCurrent_keeps
                  (set_currentProverb
                     (array_get (proverbs st) (randomIndex (proverbs st) random)) st)) as [P F].
      rewrite P, F. split; [reflexivity | exact FP].
Qed.

Lemma collection_fixed_after_load_witness :
  fetchPending sampleState = false /\
  step (NewProverbClick b64_tiny) sampleState =
    Some (selected (mkProverb "p0" "t0" "m0") sampleState, []) /\
  proverbs (selected (mkProverb "p0" "t0" "m0") sampleState) = proverbs sampleState /\
  fetchPending (selected (mkProverb "p0" "t0" "m0") sampleState) = false.
Proof.
  split; [reflexivity | ]. split; [reflexivity | ].
  exact (collection_fixed_after_load (NewProverbClick b64_tiny) sampleState
           (selected (mkProverb "p0" "t0" "m0") sampleState) [] eq_refl eq_refl).
Defined.

(* ================================================================== *)
(** ** What the page shows                                                *)
(* ================================================================== *)

Lemma showCurrent_shown st : shown_is_selected (after (showCurrent st)).
Proof.
  unfold showCurrent, shown_is_selected.
  destruct (currentProverb st) as [c | ] eqn:E; cbn [after].
  - cbn [set_page currentProverb page]. intros c' H. rewrite E in H. injection H as <-.
    repeat split.
  - intros c' H. rewrite E in H. discriminate.
Qed.

Lemma showCurrent_throw_none st e :
  completion (showCurrent st) = Throw e -> currentProverb (after (showCurrent st)) = None.
Proof.
  unfold showCurrent. destruct (currentProverb st) eqn:E; cbn; [discriminate | intros _; exact E].
Qed.

Lemma showCurrent_facts st :
  shown_is_selected (after (showCurrent st)) /\
  forall e, completion (showCurrent st) = Throw e ->
            currentProverb (after (showCurrent st)) = None.
Proof.
  split; [apply showCurrent_shown | intros e; apply showCurrent_throw_none].
Qed.

Lemma displayDailyProverb_shown h st :
  shown_is_selected st ->
  shown_is_selected (after (displayDailyProverb h st)) /\
  forall e, completion (displayDailyProverb h st) = Throw e ->
            currentProverb (after (displayDailyProverb h st)) = None.
Proof.
  intros J. unfold displayDailyProverb.
  destruct (array_length (proverbs st) =? 0).
  - split; [exact J | intros e H; discriminate H].
  - apply showCurrent_facts.
Qed.

Lemma displayRandomProverb_shown random st :
  shown_is_selected st ->
  shown_is_selected (after (displayRandomProverb random st)).
Proof.
  intros J. unfold displayRandomProverb.
  destruct (array_length (proverbs st) =? 0); [exact J | apply showCurrent_shown].
Qed.

Lemma fetchFulfilled_shown data h st :
  currentProverb st = None ->
  shown_is_selected (after (fetchFulfilled data h st)).
Proof.
  intros Nn. unfold fetchFulfilled.
  assert (J0 : shown_is_selected (set_proverbs data st)).
  { intros c H. cbn [set_proverbs currentProverb] in H. rewrite Nn in H. discriminate H. }
  destruct (displayDailyProverb_shown h (set_proverbs data st) J0) as [Sh Th].
  destruct (displayDailyProverb h (set_proverbs data st)) as [a f [ | e]];
    cbn [after completion effects] in *.
  - exact Sh.
  - specialize (Th e eq_refl). intros c H.
    unfold fetchCatch in H. cbn [after set_page currentProverb] in H.
    rewrite Th in H. discriminate H.
Qed.

Lemma shown_same_page st st' :
  currentProverb st' = currentProverb st ->
  proverbTextEl (page st') = proverbTextEl (page st) ->
  translationEl (page st') = translationEl (page st) ->
  meaningEl (page st') = meaningEl (page st) ->
  shown_is_selected st -> shown_is_selected st'.
Proof.
  intros C P T M J c H. rewrite C in H. destruct (J c H) as (A & B & D).
  unfold shows. rewrite P, T, M. repeat split; assumption.
Qed.

(** The events of the copy and share actions write to the copy button at
    most: the three display elements stay as they are. *)
Lemma step_copyOrShare_page ev st st' fx :
  copyOrShare ev = true -> step ev st = Some (st', fx) ->
  proverbTextEl (page st') = proverbTextEl (page st) /\
  translationEl (page st') = translationEl (page st) /\
  meaningEl (page st') = meaningEl (page st).
Proof.
  destruct ev; cbn [copyOrShare]; try discriminate; intros _; unfold step.
  - unfold copyProverb. destruct (currentProverb st); [destruct hasClipboard | ];
      intros [= <- _]; repeat split.
  - destruct (pendingWrites st); [discriminate | ].
    destruct s; intros [= <- _]; repeat split.
  - destruct (timers st); [discriminate | ]. intros [= <- _]; repeat split.
  - unfold shareProverb. destruct (currentProverb st); [destruct canShare | ];
      intros [= <- _]; repeat split.
  - destruct (pendingShares st); [discriminate | ].
    destruct s; intros [= <- _]; repeat split.
Qed.

Lemma step_shown ev st st' fx :
  shown_is_selected st ->
  (fetchPending st = true -> currentProverb st = None) ->
  step ev st = Some (st', fx) ->
  shown_is_selected st'.
Proof.
  intros J Pend S.
  destruct (copyOrShare ev) eqn:K.
  - destruct (step_copyOrShare _ _ _ _ K S) as (C & _ & _).
    destruct (step_copyOrShare_page _ _ _ _ K S) as (P & T & M).
    exact (shown_same_page st st' C P T M J).
  - destruct ev; cbn [copyOrShare] in K; try discriminate K; unfold step in S.
    + destruct (fetchPending st) eqn:FP; [ | discriminate S].
      apply listener_eq in S. subst st'.
      apply fetchFulfilled_shown. exact (Pend eq_refl).
    + destruct (fetchPending st) eqn:FP; [ | discriminate S].
      apply listener_eq in S. subst st'.
      intros c H. unfold fetchCatch in H.
      cbn [after set_page set_fetchPending currentProverb] in H.
      rewrite (Pend eq_refl) in H. discriminate H.
    + destruct (unitInterval random); [ | discriminate S].
      apply listener_eq in S. subst st'.
      apply displayRandomProverb_shown. exact J.
Qed.

Lemma pending_selection st :
  session_invariant st -> fetchPending st = true -> currentProverb st = None.
Proof.
  intros [Sel Pend] FP. apply selection_in_empty; [exact Sel | exact (Pend FP)].
Qed.

(** X15: in every state a session can reach, the page shows the current
    selection: the proverb element holds its proverb, the translation
    element its translation between double quotes, the meaning element its
    meaning.  So what "copy" and "share" take is what the user sees. *)
Theorem page_shows_current_selection (pg : Page) (st : State) (c : ProverbRecord) :
  reachable pg st ->
  currentProverb st = Some c ->
  proverbTextEl (page st) = proverb c /\
  translationEl (page st) = (dquote ++ translation c ++ dquote)%string /\
  meaningEl (page st) = meaning c.
Proof.
  intros R. revert c.
  change (shown_is_selected st).
  induction R as [ | st ev st' fx R IH S].
  - intros c H. discriminate.
  - eapply step_shown; [exact IH | | exact S].
    apply pending_selection. eapply reachable_invariant; eassumption.
Qed.

Lemma page_shows_current_selection_witness :
  reachable samplePage (selected (mkProverb "p1" "t1" "m1") sampleState) /\
  currentProverb (selected (mkProverb "p1" "t1" "m1") sampleState) =
    Some (mkProverb "p1" "t1" "m1") /\
  (proverbTextEl (page (selected (mkProverb "p1" "t1" "m1") sampleState)) = "p1"%string /\
   translationEl (page (selected (mkProverb "p1" "t1" "m1") sampleState)) =
     (dquote ++ "t1" ++ dquote)%string /\
   meaningEl (page (selected (mkProverb "p1" "t1" "m1") sampleState)) = "m1"%string).
Proof.
  assert (R : reachable samplePage (selected (mkProverb "p1" "t1" "m1") sampleState)).
  { exact (reach_step samplePage (initial samplePage)
             (FetchFulfilled sampleProverbs (mkHost 1704412800000 0))
             (selected (mkProverb "p1" "t1" "m1") sampleState) []
             (reach_initial samplePage) eq_refl). }
  split; [exact R | ]. split; [reflexivity | ].
  exact (page_shows_current_selection samplePage _ (mkProverb "p1" "t1" "m1") R eq_refl).
Defined.

(* ================================================================== *)
(** ** The label of the copy button                                       *)
(* ================================================================== *)

Lemma set_copyBtn_same pg : set_copyBtn (copyBtn pg) pg = pg.
Proof. destruct pg; reflexivity. Qed.

(** X16: one fulfilled copy with no timer pending, then its timer: in
    between the button carries the "copied" label, afterwards the label it
    had, and the page is as before. *)
Theorem copy_label_restored (st : State) (n : nat) :
  pendingWrites st = S n ->
  timers st = [] ->
  (exists st1,
     step (WriteTextSettled Fulfilled) st = Some (st1, []) /\
     copyBtn (page st1) = copiedLabel /\ timers st1 = [copyBtn (page st)]) /\
  run [WriteTextSettled Fulfilled; TimerFired] st = Some (set_pendingWrites n st, []).
Proof.
  destruct st as [l c pg fp pw ps tm]. cbn [pendingWrites timers].
  intros -> ->. split.
  - eexists. split; [reflexivity | ]. split; reflexivity.
  - cbn. destruct pg; reflexivity.
Qed.

Lemma copy_label_restored_witness :
  pendingWrites (set_pendingWrites 1 sampleState) = 1%nat /\
  timers (set_pendingWrites 1 sampleState) = [] /\
  run [WriteTextSettled Fulfilled; TimerFired] (set_pendingWrites 1 sampleState) =
    Some (set_pendingWrites 0 (set_pendingWrites 1 sampleState), []).
Proof.
  split; [reflexivity | ]. split; [reflexivity | ].
  exact (proj2 (copy_label_restored (set_pendingWrites 1 sampleState) 0 eq_refl eq_refl)).
Defined.

(** X17: two copies fulfilled before the first timer fires: the second
    callback reads the "copied" label as the original, and the last timer
    puts it back, so the button keeps that label. *)
Theorem copy_twice_keeps_copied_label (st : State) (n : nat) :
  pendingWrites st = S (S n) ->
  timers st = [] ->
  exists st',
    run [WriteTextSettled Fulfilled; WriteTextSettled Fulfilled; TimerFired; TimerFired] st =
      Some (st', []) /\
    copyBtn (page st') = copiedLabel /\ timers st' = [] /\ pendingWrites st' = n.
Proof.
  destruct st as [l c pg fp pw ps tm]. cbn [pendingWrites timers].
  intros -> ->. eexists. split; [reflexivity | ]. repeat split.
Qed.

Lemma copy_twice_keeps_copied_label_witness :
  pendingWrites (set_pendingWrites 2 sampleState) = 2%nat /\
  timers (set_pendingWrites 2 sampleState) = [] /\
  exists st',
    run [WriteTextSettled Fulfilled; WriteTextSettled Fulfilled; TimerFired; TimerFired]
        (set_pendingWrites 2 sampleState) = Some (st', []) /\
    copyBtn (page st') = copiedLabel /\ timers st' = [] /\ pendingWrites st' = 0%nat.
Proof.
  split; [reflexivity | ]. split; [reflexivity | ].
  exact (copy_twice_keeps_copied_label (set_pendingWrites 2 sampleState) 0 eq_refl eq_refl).
Defined.

(** *** Instances of two lemmas above *)

Lemma getUTCOrdinalDay_next_day_witness :
  validTime 1704326400000 /\ validTime (1704326400000 + msPerDay) /\
  getUTCFullYear (1704326400000 + msPerDay) = getUTCFullYear 1704326400000 /\
  getUTCFullYear 1704326400000 <> 0 /\
  getUTCOrdinalDay 1704326400000 = Some 3 /\
  getUTCOrdinalDay (1704326400000 + msPerDay) = Some (3 + 1).
Proof.
  assert (V : validTime 1704326400000) by (unfold validTime, maxTimeValue; lia).
  assert (V' : validTime (1704326400000 + msPerDay))
    by (unfold validTime, maxTimeValue, msPerDay; lia).
  assert (N : getUTCFullYear 1704326400000 <> 0).
  { change (getUTCFullYear 1704326400000) with 2024. lia. }
  split; [exact V | ]. split; [exact V' | ]. split; [reflexivity | ].
  split; [exact N | ]. split; [reflexivity | ].
  exact (getUTCOrdinalDay_next_day 1704326400000 3 V V' eq_refl N eq_refl).
Defined.

Lemma displayDailyProverb_calendar_witness :
  proverbs sampleState <> [] /\
  validTime 1704412800000 /\
  - maxTimeValue <= yearStart 1704412800000 /\
  (getUTCFullYear 1704412800000 = 0 -> ordinalDaySpec 1704412800000 < 60) /\
  exists c,
    nth_error (proverbs sampleState)
      (Z.to_nat (ordinalDaySpec 1704412800000 mod array_length (proverbs sampleState))) = Some c /\
    displayDailyProverb (mkHost 1704412800000 0) sampleState =
    mkResult (selected c sampleState) [] Normal.
Proof.
  assert (V : validTime 1704412800000) by (unfold validTime, maxTimeValue; lia).
  assert (S : - maxTimeValue <= yearStart 1704412800000).
  { change (yearStart 1704412800000) with 1704067200000. unfold maxTimeValue. lia. }
  assert (Z0 : getUTCFullYear 1704412800000 = 0 -> ordinalDaySpec 1704412800000 < 60).
  { intros _. change (ordinalDaySpec 1704412800000) with 4. lia. }
  split; [discriminate | ]. split; [exact V | ]. split; [exact S | ]. split; [exact Z0 | ].
  apply (displayDailyProverb_calendar (mkHost 1704412800000 0) sampleState);
    [discriminate | exact V | exact S | exact Z0].
Defined.
